(** * STAC catalog builder for the Gobindpur LULC raster

    A shallow embedding of [stac_script_raster_2.py] and the properties of
    the catalog it writes.

    The script is a straight-line program over the file system and a few
    libraries (rasterio, shapely, pystac, datetime, json, matplotlib).  The
    embedding follows it statement by statement in a state-and-exception
    monad over a world made of the file system and the console.  The
    library calls are modelled by the small executable models of the first
    part of the file; the script itself is in the module [Script].

    Strings are sequences of 8-bit characters.  A character of a tag value
    or of a path stands for the code point of the same number; the texts
    the script prints are kept as their UTF-8 bytes.  Coordinates are
    binary64 floats, which the script only copies. *)

From Stdlib Require Import ZArith String Ascii List DecimalString.
From Stdlib Require Import Floats.PrimFloat.
From stdpp Require Import gmap strings.

Import ListNotations.
Local Open Scope string_scope.
Local Open Scope Z_scope.

(** ** Python values shared by the models *)

(** Exceptions the script can meet.  The text of a message is kept
    structured: the script only interpolates the exception in a warning. *)
Inductive exn : Type :=
  | ValueError_no_match (data_string format : string)
  | ValueError_unconverted (rest : string)
  | ValueError_out_of_range (what : string)
  | TypeError (what : string)
  | AttributeError (what : string)
  | IndexError (what : string)
  | RasterioIOError (path : string)
  | FileNotFoundError (path : string)
  | STACError (what : string).

Inductive result (A : Type) : Type :=
  | Ok (a : A)
  | Raise (e : exn).
Arguments Ok {A} a.
Arguments Raise {A} e.

Definition result_bind {A B} (r : result A) (k : A -> result B) : result B :=
  match r with
  | Ok a => k a
  | Raise e => Raise e
  end.

(** Truthiness of a string: the empty string is false. *)
Definition str_truthy (s : string) : bool :=
  match s with
  | EmptyString => false
  | String _ _ => true
  end.

(** ** Strings and POSIX paths ([os.path]) *)

Module PyStr.

Definition chars (s : string) : list ascii := list_ascii_of_string s.
Definition of_chars (l : list ascii) : string := string_of_list_ascii l.

Definition startswith (p s : string) : bool := String.prefix p s.

(** [s.split(sep)] for a one-character separator. *)
Fixpoint split_aux (sep : ascii) (cur : list ascii) (l : list ascii)
  : list string :=
  match l with
  | [] => [of_chars (rev cur)]
  | c :: l' =>
      if Ascii.eqb c sep then of_chars (rev cur) :: split_aux sep [] l'
      else split_aux sep (c :: cur) l'
  end.

Definition split (sep : ascii) (s : string) : list string :=
  split_aux sep [] (chars s).

(** [sep.join(parts)]. *)
Fixpoint join (sep : string) (parts : list string) : string :=
  match parts with
  | [] => ""
  | [p] => p
  | p :: ps => p +:+ sep +:+ join sep ps
  end.

Fixpoint dropwhile (p : ascii -> bool) (l : list ascii) : list ascii :=
  match l with
  | c :: l' => if p c then dropwhile p l' else l
  | [] => []
  end.

(** [s.rstrip(c)] for a one-character [c]. *)
Definition rstrip (c : ascii) (s : string) : string :=
  of_chars (rev (dropwhile (Ascii.eqb c) (rev (chars s)))).

(** [s[:s.rfind(c) + 1]]: the text up to and including the last [c]
    (empty when [c] does not occur, [rfind] being [-1] then). *)
Definition upto_last (c : ascii) (s : string) : string :=
  of_chars (rev (dropwhile (fun x => negb (Ascii.eqb c x)) (rev (chars s)))).

Definition all_eq (c : ascii) (s : string) : bool :=
  forallb (Ascii.eqb c) (chars s).

(** [str(n)] for an integer. *)
Definition str_of_Z (n : Z) : string := NilZero.string_of_int (Z.to_int n).

Definition endswith_char (c : ascii) (s : string) : bool :=
  match rev (chars s) with
  | x :: _ => Ascii.eqb c x
  | [] => false
  end.

End PyStr.

Module PosixPath.

Definition sep : ascii := "/"%char.

Definition isabs (p : string) : bool := PyStr.startswith "/" p.

(** [os.path.join(a, b)]. *)
Definition join (a b : string) : string :=
  if PyStr.startswith "/" b then b
  else if negb (str_truthy a) || PyStr.endswith_char sep a then a +:+ b
  else a +:+ "/" +:+ b.

(** [os.path.dirname(p)]. *)
Definition dirname (p : string) : string :=
  let head := PyStr.upto_last sep p in
  if str_truthy head && negb (PyStr.all_eq sep head)
  then PyStr.rstrip sep head
  else head.

(** The loop of [os.path.normpath]: [new_comps] is kept reversed. *)
Fixpoint norm_comps (initial_slashes : bool) (new_comps : list string)
    (comps : list string) : list string :=
  match comps with
  | [] => rev new_comps
  | comp :: comps' =>
      if String.eqb comp "" || String.eqb comp "." then
        norm_comps initial_slashes new_comps comps'
      else if negb (String.eqb comp "..") then
        norm_comps initial_slashes (comp :: new_comps) comps'
      else
        match new_comps with
        | [] =>
            if initial_slashes then norm_comps initial_slashes [] comps'
            else norm_comps initial_slashes [comp] comps'
        | last :: popped =>
            if String.eqb last ".."
            then norm_comps initial_slashes (comp :: new_comps) comps'
            else norm_comps initial_slashes popped comps'
        end
  end.

(** [os.path.normpath(path)]. *)
Definition normpath (path : string) : string :=
  if negb (str_truthy path) then "."
  else
    let initial_slashes : nat :=
      if PyStr.startswith "/" path then
        if PyStr.startswith "//" path && negb (PyStr.startswith "///" path)
        then 2%nat else 1%nat
      else 0%nat in
    let comps := norm_comps (negb (Nat.eqb initial_slashes 0)) []
                   (PyStr.split sep path) in
    let body := PyStr.join "/" comps in
    let path' :=
      match initial_slashes with
      | O => body
      | S O => "/" +:+ body
      | _ => "//" +:+ body
      end in
    if str_truthy path' then path' else ".".

End PosixPath.


(** ** A backtracking matcher for the regular expressions of [_strptime]

    [datetime.strptime] compiles its format to a regular expression and
    calls [re.match].  The fragment below covers what the numeric
    directives produce: literals, character classes, concatenation, ordered
    alternatives, [\s+] and named groups.  [go] returns the first match in
    the order a backtracking matcher tries them, which is the match [re]
    reports.  [_strptime] compiles with [re.IGNORECASE]; the patterns of
    the numeric directives hold no letter, so the flag changes nothing. *)

Module Regex.

Inductive re : Type :=
  | Lit (c : ascii)
  | Class (p : ascii -> bool)
  | Cat (r1 r2 : re)
  | Alt (r1 r2 : re)
  | Plus (p : ascii -> bool)
  | Group (name : string) (r : re).

Definition groupdict : Type := list (string * string).

Definition orelse {R} (a b : option R) : option R :=
  match a with
  | Some x => Some x
  | None => b
  end.

(** Greedy [p+]: take as many characters as possible, give back one at a
    time while the rest of the pattern fails. *)
Fixpoint plus_class {R} (p : ascii -> bool) (s : list ascii)
    (k : list ascii -> option R) : option R :=
  match s with
  | c :: s' => if p c then orelse (plus_class p s' k) (k s') else None
  | [] => None
  end.

Fixpoint go {R} (r : re) (s : list ascii) (g : groupdict)
    (k : list ascii -> groupdict -> option R) : option R :=
  match r with
  | Lit c =>
      match s with
      | x :: s' => if Ascii.eqb x c then k s' g else None
      | [] => None
      end
  | Class p =>
      match s with
      | x :: s' => if p x then k s' g else None
      | [] => None
      end
  | Cat r1 r2 => go r1 s g (fun s' g' => go r2 s' g' k)
  | Alt r1 r2 => orelse (go r1 s g k) (go r2 s g k)
  | Plus p => plus_class p s (fun s' => k s' g)
  | Group name r1 =>
      go r1 s g (fun s' g' =>
        let text := firstn (length s - length s') s in
        k s' (g' ++ [(name, PyStr.of_chars text)])%list)
  end.

(** [re.match]: the groups of the first match at the start of [s] and the
    text left after it ([s[found.end():]]). *)
Definition re_match (r : re) (s : string) : option (groupdict * string) :=
  go r (PyStr.chars s) [] (fun rest g => Some (g, PyStr.of_chars rest)).

Definition group (g : groupdict) (name : string) : string :=
  match List.find (fun kv => String.eqb (fst kv) name) g with
  | Some kv => snd kv
  | None => ""
  end.

(** Character classes; characters are the code points 0..255. *)
Definition in_range (lo hi : ascii) (c : ascii) : bool :=
  (N_of_ascii lo <=? N_of_ascii c)%N && (N_of_ascii c <=? N_of_ascii hi)%N.

(** [\d]: among the code points below 256 the decimal digits are 0-9. *)
Definition digit : ascii -> bool := in_range "0" "9".

(** [\s] of a [str] pattern: tab, newline, vertical tab, form feed,
    carriage return, the separators 0x1c-0x1f, space, NEL and the
    no-break space. *)
Definition space (c : ascii) : bool :=
  let n := N_of_ascii c in
  ((9 <=? n) && (n <=? 13) || (28 <=? n) && (n <=? 32)
   || (n =? 133) || (n =? 160))%N.

Definition seq2 (p q : ascii -> bool) : re := Cat (Class p) (Class q).
Definition only (c : ascii) : ascii -> bool := Ascii.eqb c.

End Regex.

(** ** [datetime]: naive date-times, [strptime] and [isoformat] *)

Module Datetime.

(** A naive [datetime.datetime] (no [tzinfo]: neither the constructor
    calls of the script nor its format string, which has no [%z], give
    one). *)
Record datetime : Type := mk_datetime {
  year : Z; month : Z; day : Z;
  hour : Z; minute : Z; second : Z; microsecond : Z
}.

Definition is_leap (y : Z) : bool :=
  (y mod 4 =? 0) && (negb (y mod 100 =? 0) || (y mod 400 =? 0)).

Definition days_in_month (y m : Z) : Z :=
  if m =? 2 then (if is_leap y then 29 else 28)
  else if (m =? 4) || (m =? 6) || (m =? 9) || (m =? 11) then 30
  else 31.

Definition within (lo hi x : Z) : bool := (lo <=? x) && (x <=? hi).

(** The field checks of [date(year, month, day)]. *)
Definition check_date_fields (y m d : Z) : result unit :=
  if negb (within 1 9999 y) then Raise (ValueError_out_of_range "year")
  else if negb (within 1 12 m) then Raise (ValueError_out_of_range "month")
  else if negb (within 1 (days_in_month y m) d)
       then Raise (ValueError_out_of_range "day")
  else Ok tt.

Definition check_time_fields (h mi s us : Z) : result unit :=
  if negb (within 0 23 h) then Raise (ValueError_out_of_range "hour")
  else if negb (within 0 59 mi) then Raise (ValueError_out_of_range "minute")
  else if negb (within 0 59 s) then Raise (ValueError_out_of_range "second")
  else if negb (within 0 999999 us)
       then Raise (ValueError_out_of_range "microsecond")
  else Ok tt.

(** [datetime(year, month, day, hour, minute, second, microsecond)]. *)
Definition new (y m d h mi s us : Z) : result datetime :=
  result_bind (check_date_fields y m d) (fun _ =>
  result_bind (check_time_fields h mi s us) (fun _ =>
  Ok (mk_datetime y m d h mi s us))).

(** The date-times the constructor accepts. *)
Definition valid (dt : datetime) : Prop :=
  check_date_fields (year dt) (month dt) (day dt) = Ok tt /\
  check_time_fields (hour dt) (minute dt) (second dt) (microsecond dt)
  = Ok tt.

(** [datetime(year, month, day)]: the time fields default to 0. *)
Definition new_date (y m d : Z) : result datetime := new y m d 0 0 0 0.

(** Comparison of naive date-times: lexicographic on the fields. *)
Definition fields (dt : datetime) : list Z :=
  [year dt; month dt; day dt; hour dt; minute dt; second dt;
   microsecond dt].

Fixpoint lex_compare (a b : list Z) : comparison :=
  match a, b with
  | x :: a', y :: b' =>
      match x ?= y with
      | Eq => lex_compare a' b'
      | c => c
      end
  | [], [] => Eq
  | [], _ :: _ => Lt
  | _ :: _, [] => Gt
  end.

Definition compare (a b : datetime) : comparison :=
  lex_compare (fields a) (fields b).
Definition lt (a b : datetime) : Prop := compare a b = Lt.
Definition le (a b : datetime) : Prop := compare a b <> Gt.

(** *** [strptime] with the format ["%Y:%m:%d %H:%M:%S"] *)

Import Regex.

Definition format : string := "%Y:%m:%d %H:%M:%S".

(** The table of [_strptime.TimeRE] for the six directives of [format]. *)
Definition re_Y : re :=            (* (?P<Y>\d\d\d\d) *)
  Group "Y" (Cat (seq2 digit digit) (seq2 digit digit)).
Definition re_m : re :=            (* (?P<m>1[0-2]|0[1-9]|[1-9]) *)
  Group "m" (Alt (seq2 (only "1") (in_range "0" "2"))
            (Alt (seq2 (only "0") (in_range "1" "9"))
                 (Class (in_range "1" "9")))).
Definition re_d : re :=  (* (?P<d>3[0-1]|[1-2]\d|0[1-9]|[1-9]| [1-9]) *)
  Group "d" (Alt (seq2 (only "3") (in_range "0" "1"))
            (Alt (seq2 (in_range "1" "2") digit)
            (Alt (seq2 (only "0") (in_range "1" "9"))
            (Alt (Class (in_range "1" "9"))
                 (seq2 (only " ") (in_range "1" "9")))))).
Definition re_H : re :=            (* (?P<H>2[0-3]|[0-1]\d|\d) *)
  Group "H" (Alt (seq2 (only "2") (in_range "0" "3"))
            (Alt (seq2 (in_range "0" "1") digit)
                 (Class digit))).
Definition re_M : re :=            (* (?P<M>[0-5]\d|\d) *)
  Group "M" (Alt (seq2 (in_range "0" "5") digit) (Class digit)).
Definition re_S : re :=            (* (?P<S>6[0-1]|[0-5]\d|\d) *)
  Group "S" (Alt (seq2 (only "6") (in_range "0" "1"))
            (Alt (seq2 (in_range "0" "5") digit)
                 (Class digit))).

(** [TimeRE.pattern(format)]: each directive replaced by its entry, the
    blank by [\s+], the colons kept. *)
Definition format_regex : re :=
  Cat re_Y (Cat (Lit ":") (Cat re_m (Cat (Lit ":") (Cat re_d
 (Cat (Plus space)
 (Cat re_H (Cat (Lit ":") (Cat re_M (Cat (Lit ":") re_S))))))))).

(** [int(text)] for the text of a numeric group: decimal digits, after
    blanks that [int] strips (the [" [1-9]"] alternative of [%d]). *)
Definition digit_value (c : ascii) : Z := Z.of_N (N_of_ascii c) - 48.

Definition int_of_group (text : string) : Z :=
  fold_left (fun acc c => 10 * acc + digit_value c)
    (PyStr.dropwhile space (PyStr.chars text)) 0.

(** [datetime.strptime(data_string, "%Y:%m:%d %H:%M:%S")].  After the
    match, [_strptime] builds [date(year, month, day)] for the day of
    the year, and [_strptime_datetime] calls the constructor on the six
    fields and a zero fraction; both can raise [ValueError]. *)
Definition strptime (data_string : string) : result datetime :=
  match re_match format_regex data_string with
  | None => Raise (ValueError_no_match data_string format)
  | Some (found_dict, rest) =>
      if str_truthy rest then Raise (ValueError_unconverted rest)
      else
        let year := int_of_group (group found_dict "Y") in
        let month := int_of_group (group found_dict "m") in
        let day := int_of_group (group found_dict "d") in
        let hour := int_of_group (group found_dict "H") in
        let minute := int_of_group (group found_dict "M") in
        let second := int_of_group (group found_dict "S") in
        result_bind (check_date_fields year month day) (fun _ =>
        new year month day hour minute second 0)
  end.

(** *** [isoformat] *)

(** ["%0<width>d" % n] for [0 <= n]. *)
Definition zero_padded (width : nat) (n : Z) : string :=
  let digits := PyStr.str_of_Z n in
  PyStr.of_chars (repeat "0"%char (width - String.length digits))
  +:+ digits.

(** [dt.isoformat()] of a naive date-time: the fraction is printed only
    when the microseconds are not zero. *)
Definition isoformat (dt : datetime) : string :=
  zero_padded 4 (year dt) +:+ "-" +:+ zero_padded 2 (month dt) +:+ "-"
  +:+ zero_padded 2 (day dt) +:+ "T"
  +:+ zero_padded 2 (hour dt) +:+ ":" +:+ zero_padded 2 (minute dt) +:+ ":"
  +:+ zero_padded 2 (second dt)
  +:+ (if microsecond dt =? 0 then ""
       else "." +:+ zero_padded 6 (microsecond dt)).

End Datetime.

(** ** Python dictionaries with string keys

    A [dict] keeps its keys in insertion order, and [d[k] = v] on a key
    that is present replaces the value where it stands. *)

Module PyDict.

Definition t (V : Type) : Type := list (string * V).

Fixpoint get {V} (k : string) (d : t V) : option V :=
  match d with
  | [] => None
  | (k', v) :: d' => if String.eqb k' k then Some v else get k d'
  end.

Fixpoint set {V} (k : string) (v : V) (d : t V) : t V :=
  match d with
  | [] => [(k, v)]
  | (k', v') :: d' =>
      if String.eqb k' k then (k', v) :: d' else (k', v') :: set k v d'
  end.

Definition keys {V} (d : t V) : list string := map fst d.
Definition values {V} (d : t V) : list V := map snd d.
Definition contains {V} (k : string) (d : t V) : bool :=
  match get k d with
  | Some _ => true
  | None => false
  end.

(** [dict(pairs)]. *)
Definition of_pairs {V} (pairs : list (string * V)) : t V :=
  fold_left (fun d kv => set (fst kv) (snd kv) d) pairs [].

End PyDict.

(** ** [json]: the values the script builds, [dump] and [loads] *)

Module Json.

Local Set Warnings "-register-all".

(** Python values made of [None], booleans, integers, strings, lists and
    dictionaries with string keys. *)
Inductive value : Type :=
  | Null
  | Bool (b : bool)
  | Int (n : Z)
  | Str (s : string)
  | List (items : list value)
  | Dict (items : PyDict.t value).

(** *** [json.dumps(obj, indent=...)] *)

Definition hex_digit (n : N) : ascii :=
  ascii_of_N (if (n <? 10)%N then 48 + n else 87 + n)%N.

(** ['\\u{0:04x}'.format(n)] for a code point below 256. *)
Definition u_escape (c : ascii) : list ascii :=
  let n := N_of_ascii c in
  ["\"%char; "u"%char; "0"%char; "0"%char;
   hex_digit (n / 16)%N; hex_digit (n mod 16)%N].

(** [ESCAPE_ASCII]: the backslash, the quote and whatever is not between
    the space and the tilde are escaped. *)
Definition escape_char (c : ascii) : list ascii :=
  let n := N_of_ascii c in
  if (n =? 92)%N then ["\"%char; "\"%char]
  else if (n =? 34)%N then ["\"%char; ascii_of_N 34]
  else if (n =? 8)%N then ["\"%char; "b"%char]
  else if (n =? 12)%N then ["\"%char; "f"%char]
  else if (n =? 10)%N then ["\"%char; "n"%char]
  else if (n =? 13)%N then ["\"%char; "r"%char]
  else if (n =? 9)%N then ["\"%char; "t"%char]
  else if (32 <=? n)%N && (n <=? 126)%N then [c]
  else u_escape c.

Definition quote : string := String (ascii_of_N 34) EmptyString.

Definition encode_basestring_ascii (s : string) : string :=
  quote +:+ PyStr.of_chars (flat_map escape_char (PyStr.chars s)) +:+ quote.

Definition newline : string := String (ascii_of_N 10) EmptyString.

(** The line break and the blanks before an item at nesting [level]. *)
Definition newline_indent (indent level : nat) : string :=
  newline +:+ PyStr.of_chars (repeat " "%char (indent * level)).

Fixpoint encode (indent level : nat) (v : value) : string :=
  match v with
  | Null => "null"
  | Bool true => "true"
  | Bool false => "false"
  | Int n => PyStr.str_of_Z n
  | Str s => encode_basestring_ascii s
  | List [] => "[]"
  | List items =>
      "[" +:+ newline_indent indent (S level)
      +:+ PyStr.join ("," +:+ newline_indent indent (S level))
            (map (encode indent (S level)) items)
      +:+ newline_indent indent level +:+ "]"
  | Dict [] => "{}"
  | Dict items =>
      "{" +:+ newline_indent indent (S level)
      +:+ PyStr.join ("," +:+ newline_indent indent (S level))
            (map (fun kv => encode_basestring_ascii (fst kv) +:+ ": "
                            +:+ encode indent (S level) (snd kv)) items)
      +:+ newline_indent indent level +:+ "}"
  end.

Definition dumps (obj : value) (indent : nat) : string :=
  encode indent 0 obj.

(** *** [json.loads(text)]

    A recursive-descent reader of what [dumps] writes and of JSON text
    in general, short of numbers with a fraction or an exponent and of
    code points above 255, on which it gives [None]; [None] is also the
    answer on text that is not JSON.  [fuel] bounds the nesting. *)

Definition is_ws (c : ascii) : bool :=
  let n := N_of_ascii c in
  ((n =? 32) || (n =? 9) || (n =? 10) || (n =? 13))%N.

Definition skip_ws (s : list ascii) : list ascii := PyStr.dropwhile is_ws s.

Definition hex_value (c : ascii) : option N :=
  let n := N_of_ascii c in
  if (48 <=? n)%N && (n <=? 57)%N then Some (n - 48)%N
  else if (97 <=? n)%N && (n <=? 102)%N then Some (n - 87)%N
  else if (65 <=? n)%N && (n <=? 70)%N then Some (n - 55)%N
  else None.

(** The body of a string, after its opening quote. *)
Fixpoint read_string (s : list ascii) (acc : list ascii)
  : option (string * list ascii) :=
  match s with
  | [] => None
  | c :: s' =>
      let n := N_of_ascii c in
      if (n =? 34)%N then Some (PyStr.of_chars (rev acc), s')
      else if (n <? 32)%N then None
      else if (n =? 92)%N then
        match s' with
        | e :: s'' =>
            let m := N_of_ascii e in
            if (m =? 34)%N || (m =? 92)%N || (m =? 47)%N
            then read_string s'' (e :: acc)
            else if (m =? 98)%N then read_string s'' (ascii_of_N 8 :: acc)
            else if (m =? 102)%N then read_string s'' (ascii_of_N 12 :: acc)
            else if (m =? 110)%N then read_string s'' (ascii_of_N 10 :: acc)
            else if (m =? 114)%N then read_string s'' (ascii_of_N 13 :: acc)
            else if (m =? 116)%N then read_string s'' (ascii_of_N 9 :: acc)
            else if (m =? 117)%N then
              match s'' with
              | h1 :: h2 :: h3 :: h4 :: s''' =>
                  match hex_value h1, hex_value h2, hex_value h3,
                        hex_value h4 with
                  | Some 0%N, Some 0%N, Some a, Some b =>
                      read_string s''' (ascii_of_N (16 * a + b) :: acc)
                  | _, _, _, _ => None
                  end
              | _ => None
              end
            else None
        | [] => None
        end
      else read_string s' (c :: acc)
  end.

Fixpoint read_digits (s : list ascii) (acc : list ascii)
  : list ascii * list ascii :=
  match s with
  | c :: s' => if Regex.digit c then read_digits s' (c :: acc)
               else (rev acc, s)
  | [] => (rev acc, [])
  end.

(** An integer literal: an optional minus sign, then 0 or a digit string
    with no leading zero; not followed by a fraction or an exponent. *)
Definition read_int (s : list ascii) : option (Z * list ascii) :=
  let '(negative, s1) :=
    match s with
    | "-"%char :: s' => (true, s')
    | _ => (false, s)
    end in
  let '(ds, rest) := read_digits s1 [] in
  let well_formed :=
    match ds with
    | [] => false
    | "0"%char :: _ :: _ => false
    | _ => true
    end in
  let followed :=
    match rest with
    | c :: _ => Ascii.eqb c "." || Ascii.eqb c "e" || Ascii.eqb c "E"
    | [] => false
    end in
  if well_formed && negb followed then
    let n := fold_left (fun acc c => 10 * acc + Datetime.digit_value c)
               ds 0 in
    Some (if negative then - n else n, rest)
  else None.

Definition expect (word : string) (s : list ascii) : option (list ascii) :=
  let w := PyStr.chars word in
  if bool_decide (firstn (length w) s = w) then Some (skipn (length w) s)
  else None.

Definition ch (n : N) (c : ascii) : bool := (N_of_ascii c =? n)%N.

Fixpoint read_value (fuel : nat) (s : list ascii)
  : option (value * list ascii) :=
  match fuel with
  | O => None
  | S fuel' =>
      match skip_ws s with
      | [] => None
      | c :: s' =>
          if ch 34 c then
            '(text, rest) ← read_string s' []; Some (Str text, rest)
          else if ch 91 c then            (* [ *)
            match skip_ws s' with
            | c' :: rest =>
                if ch 93 c' then Some (List [], rest)
                else '(items, rest') ← read_elements fuel' s' [];
                     Some (List items, rest')
            | [] => None
            end
          else if ch 123 c then           (* { *)
            match skip_ws s' with
            | c' :: rest =>
                if ch 125 c' then Some (Dict [], rest)
                else '(pairs, rest') ← read_members fuel' s' [];
                     Some (Dict (PyDict.of_pairs pairs), rest')
            | [] => None
            end
          else if ch 110 c then rest ← expect "null" (c :: s');
                                Some (Null, rest)
          else if ch 116 c then rest ← expect "true" (c :: s');
                                Some (Bool true, rest)
          else if ch 102 c then rest ← expect "false" (c :: s');
                                Some (Bool false, rest)
          else '(n, rest) ← read_int (c :: s'); Some (Int n, rest)
      end
  end

(** The items of a list, after ["["] or [","]. *)
with read_elements (fuel : nat) (s : list ascii) (acc : list value)
  : option (list value * list ascii) :=
  match fuel with
  | O => None
  | S fuel' =>
      '(v, rest) ← read_value fuel' s;
      match skip_ws rest with
      | c :: rest' =>
          if ch 44 c then read_elements fuel' rest' (v :: acc)
          else if ch 93 c then Some (rev (v :: acc), rest')
          else None
      | [] => None
      end
  end

(** The [key: value] pairs of a dictionary, after ["{"] or [","]. *)
with read_members (fuel : nat) (s : list ascii)
    (acc : list (string * value))
  : option (list (string * value) * list ascii) :=
  match fuel with
  | O => None
  | S fuel' =>
      match skip_ws s with
      | q :: s' =>
          if ch 34 q then
            '(key, rest) ← read_string s' [];
            match skip_ws rest with
            | colon :: rest' =>
                if ch 58 colon then
                  '(v, rest'') ← read_value fuel' rest';
                  match skip_ws rest'' with
                  | c :: rest3 =>
                      if ch 44 c
                      then read_members fuel' rest3 ((key, v) :: acc)
                      else if ch 125 c
                      then Some (rev ((key, v) :: acc), rest3)
                      else None
                  | [] => None
                  end
                else None
            | [] => None
            end
          else None
      | [] => None
      end
  end.

(** [json.loads(text)]: one value, blanks allowed around it. *)
Definition loads (text : string) : option value :=
  let s := PyStr.chars text in
  '(v, rest) ← read_value (S (length s)) s;
  match skip_ws rest with
  | [] => Some v
  | _ :: _ => None
  end.

End Json.

(** ** [shapely.geometry]: [box] and [mapping] *)

Module Shapely.

Definition coord : Type := float * float.

Record Polygon : Type := mk_polygon {
  exterior : list coord;
  interiors : list (list coord)
}.

(** Equality of two points, coordinate by coordinate, as [!=] compares
    floats: a NaN differs from itself, and the two zeros are equal. *)
Definition same_point (p q : coord) : bool :=
  PrimFloat.eqb (fst p) (fst q) && PrimFloat.eqb (snd p) (snd q).

(** The shell [Polygon(coords)] keeps: the first point is repeated at the
    end unless the last point already equals it.  (A shell of one or two
    points is refused; [box] always gives four.) *)
Definition close_ring (coords : list coord) : list coord :=
  match coords with
  | [] => []
  | first :: _ =>
      if same_point first (List.last coords first) then coords
      else (coords ++ [first])%list
  end.

(** [box(minx, miny, maxx, maxy)]: [Polygon] on the four corners,
    counter-clockwise from the bottom right one. *)
Definition box (minx miny maxx maxy : float) : Polygon :=
  {| exterior := close_ring [(maxx, miny); (maxx, maxy); (minx, maxy);
                             (minx, miny)];
     interiors := [] |}.

(** [box( *args )] as the script calls it, on a list of four numbers. *)
Definition box_star (args : list float) : result Polygon :=
  match args with
  | [minx; miny; maxx; maxy] => Ok (box minx miny maxx maxy)
  | _ => Raise (TypeError "box()")
  end.

(** The GeoJSON-like dictionary [mapping(ob)] returns for a polygon:
    [{"type": "Polygon", "coordinates": (exterior, *interiors)}]. *)
Record geometry : Type := mk_geometry {
  type : string;
  coordinates : list (list coord)
}.

Definition mapping (ob : Polygon) : geometry :=
  {| type := "Polygon"; coordinates := exterior ob :: interiors ob |}.

End Shapely.

(** ** [rasterio]: the data the script reads from an open dataset *)

Module Rasterio.

Record BoundingBox : Type := mk_bounds {
  left : float; bottom : float; right : float; top : float
}.

(** A band is a two-dimensional array of pixel values. *)
Definition array : Type := list (list Z).

(** An open GeoTIFF: a TIFF image has at least one band. *)
Record Dataset : Type := mk_dataset {
  bounds : BoundingBox;
  tags : gmap string string;       (* [src.tags()] *)
  band1 : array;
  more_bands : list array
}.

(** [src.read(indexes)] for one band: indexes start at 1. *)
Definition read (src : Dataset) (indexes : nat) : result array :=
  match indexes with
  | O => Raise (IndexError "band index out of range")
  | S i =>
      match nth_error (band1 src :: more_bands src) i with
      | Some a => Ok a
      | None => Raise (IndexError "band index out of range")
      end
  end.

End Rasterio.

(** ** [matplotlib.pyplot]: the figure the script draws and saves

    The current figure of [pyplot] is passed from call to call. *)

Module Pyplot.

Record Figure : Type := mk_figure {
  figsize : Z * Z;
  axis_on : bool;
  image : option (Rasterio.array * string)    (* the array and its colour map *)
}.

(** [plt.figure(figsize=figsize)]. *)
Definition figure (figsize : Z * Z) : Figure := mk_figure figsize true None.

(** [plt.axis(option)] for the options "on" and "off". *)
Definition axis (option : string) (fig : Figure) : Figure :=
  if String.eqb option "off" then mk_figure (figsize fig) false (image fig)
  else if String.eqb option "on" then mk_figure (figsize fig) true (image fig)
  else fig.

(** [plt.imshow(X, cmap=cmap)]. *)
Definition imshow (X : Rasterio.array) (cmap : string) (fig : Figure)
  : Figure :=
  mk_figure (figsize fig) (axis_on fig) (Some (X, cmap)).

(** What [plt.savefig(fname, bbox_inches=..., pad_inches=...)] renders. *)
Record Rendering : Type := mk_rendering {
  rendered : Figure;
  bbox_inches : string;
  pad_inches : Z
}.

End Pyplot.

(** ** [pystac]: assets, items, catalogs and their HREFs

    HREFs are local POSIX paths, as in the script (no URL scheme). *)

Module Pystac.

Module MediaType.
Definition GEOTIFF : string := "image/tiff; application=geotiff".
End MediaType.

Inductive CatalogType : Type :=
  | SELF_CONTAINED
  | ABSOLUTE_PUBLISHED
  | RELATIVE_PUBLISHED.

(** *** [pystac.utils] *)

Definition is_absolute_href (href : string) : bool := PosixPath.isabs href.

(** [make_absolute_href(source_href, start_href)], [start_href] being the
    HREF of a file. *)
Definition make_absolute_href (source_href start_href : string) : string :=
  if is_absolute_href source_href then source_href
  else PosixPath.normpath
         (PosixPath.join (PosixPath.dirname start_href) source_href).

Definition components (path : string) : list string :=
  filter (fun x => str_truthy x) (PyStr.split PosixPath.sep path).

Fixpoint drop_common (a b : list string) : list string * list string :=
  match a, b with
  | x :: a', y :: b' => if String.eqb x y then drop_common a' b' else (a, b)
  | _, _ => (a, b)
  end.

(** [os.path.relpath(path, start)] for absolute paths. *)
Definition relpath (path start : string) : string :=
  let '(start_rest, path_rest) :=
    drop_common (components (PosixPath.normpath start))
                (components (PosixPath.normpath path)) in
  let rel_list := (repeat ".." (length start_rest) ++ path_rest)%list in
  match rel_list with
  | [] => "."
  | _ => PyStr.join "/" rel_list
  end.

(** [make_relative_href(source_href, start_href)] for absolute paths:
    relative to the directory of [start_href]; a trailing slash of the
    source is kept, and ./ is put in front unless the path is ./ or
    starts with ../ *)
Definition make_relative_href (source_href start_href : string) : string :=
  let rel := relpath source_href (PosixPath.dirname start_href) in
  let rel :=
    if PyStr.endswith_char PosixPath.sep source_href then rel +:+ "/"
    else rel in
  if String.eqb rel "./" || PyStr.startswith "../" rel then rel
  else "./" +:+ rel.

(** [datetime_to_str(dt)]: a naive date-time is taken as UTC and printed
    with the suffix Z. *)
Definition datetime_to_str (dt : Datetime.datetime) : string :=
  Datetime.isoformat dt +:+ "Z".

(** *** Assets *)

Module Asset.
(** [pystac.Asset(href, title, description, media_type, roles)], with
    the fields the script passes. *)
Record t : Type := new {
  href : string;
  title : option string;
  media_type : option string;
  roles : option (list string)
}.

Definition set_href (h : string) (a : t) : t :=
  {| href := h; title := title a; media_type := media_type a;
     roles := roles a |}.

(** [asset.get_absolute_href()] for an asset owned by an item whose
    self HREF is [owner_href]. *)
Definition get_absolute_href (owner_href : option string) (a : t)
  : option string :=
  if is_absolute_href (href a) then Some (href a)
  else match owner_href with
       | Some h => Some (make_absolute_href (href a) h)
       | None => None
       end.
End Asset.

Record Link : Type := mk_link { rel : string; target : string }.

(** *** Items *)

Module Item.
Record t : Type := mk {
  id : string;
  geometry : Shapely.geometry;
  bbox : list float;
  datetime : option Datetime.datetime;
  properties : PyDict.t Json.value;
  assets : PyDict.t Asset.t;
  self_href : option string
}.

(** [pystac.Item(id, geometry, bbox, datetime, properties)]: without a
    [datetime] the properties must carry a start and an end. *)
Definition new (id : string) (geometry : Shapely.geometry)
    (bbox : list float) (datetime : option Datetime.datetime)
    (properties : PyDict.t Json.value) : result t :=
  let item := mk id geometry bbox datetime properties [] None in
  match datetime with
  | Some _ => Ok item
  | None =>
      if PyDict.contains "start_datetime" properties
         && PyDict.contains "end_datetime" properties
      then Ok item
      else Raise (STACError "start_datetime and end_datetime required")
  end.

Definition with_assets (a : PyDict.t Asset.t) (item : t) : t :=
  mk (id item) (geometry item) (bbox item) (datetime item)
     (properties item) a (self_href item).

Definition with_properties (p : PyDict.t Json.value) (item : t) : t :=
  mk (id item) (geometry item) (bbox item) (datetime item)
     p (assets item) (self_href item).

(** [item.add_asset(key, asset)]: [self.assets[key] = asset]. *)
Definition add_asset (key : string) (asset : Asset.t) (item : t) : t :=
  with_assets (PyDict.set key asset (assets item)) item.

(** [item.properties[key] = value]. *)
Definition set_property (key : string) (v : Json.value) (item : t) : t :=
  with_properties (PyDict.set key v (properties item)) item.

(** [item.set_self_href(href)]: when the item had a self HREF, its
    relative asset HREFs are rewritten to keep their targets. *)
Definition set_self_href (new_href : string) (item : t) : t :=
  let moved (a : Asset.t) : Asset.t :=
    match self_href item with
    | Some prev_href =>
        if is_absolute_href (Asset.href a) then a
        else Asset.set_href
               (make_relative_href
                  (make_absolute_href (Asset.href a) prev_href) new_href)
               a
    | None => a
    end in
  mk (id item) (geometry item) (bbox item) (datetime item)
     (properties item)
     (map (fun kv => (fst kv, moved (snd kv))) (assets item))
     (Some new_href).

(** [item.make_asset_hrefs_relative()]: absolute asset HREFs become
    relative to the item file; relative ones are left as they are. *)
Fixpoint relative_assets (self : option string)
    (l : PyDict.t Asset.t) : result (PyDict.t Asset.t) :=
  match l with
  | [] => Ok []
  | (k, a) :: l' =>
      result_bind
        (if is_absolute_href (Asset.href a) then
           match self with
           | Some h =>
               Ok (Asset.set_href (make_relative_href (Asset.href a) h) a)
           | None => Raise (STACError "item has no self HREF")
           end
         else Ok a) (fun a' =>
      result_bind (relative_assets self l') (fun l'' =>
      Ok ((k, a') :: l'')))
  end.

Definition make_asset_hrefs_relative (item : t) : result t :=
  result_bind (relative_assets (self_href item) (assets item))
    (fun a => Ok (with_assets a item)).

(** The dictionary [item.to_dict()] builds for a self-contained
    catalog rooted at [root_href]: no self link, the root and parent
    links relative to the item file.  [to_dict] also stores the
    [datetime] among the properties of the item itself. *)
Record dict : Type := mk_dict {
  d_id : string;
  d_geometry : Shapely.geometry;
  d_bbox : list float;
  d_properties : PyDict.t Json.value;
  d_links : list Link;
  d_assets : PyDict.t Asset.t
}.

Definition to_dict (root_href self : string) (item : t) : dict * t :=
  let item' :=
    set_property "datetime"
      (match datetime item with
       | Some dt => Json.Str (datetime_to_str dt)
       | None => Json.Null
       end) item in
  let up := make_relative_href root_href self in
  (mk_dict (id item') (geometry item') (bbox item') (properties item')
           [mk_link "root" up; mk_link "parent" up] (assets item'),
   item').
End Item.

(** *** Catalogs *)

Module Catalog.
(** A catalog and the items its item links resolve to. *)
Record t : Type := mk {
  id : string;
  description : string;
  items : list Item.t;
  self_href : option string;
  catalog_type : CatalogType
}.

(** [pystac.Catalog(id, description)]. *)
Definition new (id description : string) : t :=
  mk id description [] None ABSOLUTE_PUBLISHED.

(** [catalog.add_item(item)]: the catalog has no self HREF yet when
    the script calls it, so the item gets none. *)
Definition add_item (item : Item.t) (c : t) : t :=
  mk (id c) (description c) (items c ++ [item])%list (self_href c)
     (catalog_type c).

(** [catalog.normalize_hrefs(root_href)] with the default layout:
    [catalog.json] in the root, each item in [<id>/<id>.json]. *)
Definition normalize_hrefs (root_href cwd : string) (c : t) : t :=
  let root_href :=
    if is_absolute_href root_href then root_href
    else PosixPath.normpath (PosixPath.join cwd root_href) in
  let item_href (i : Item.t) : string :=
    PosixPath.join (PosixPath.join root_href (Item.id i))
                   (Item.id i +:+ ".json") in
  mk (id c) (description c)
     (map (fun i => Item.set_self_href (item_href i) i) (items c))
     (Some (PosixPath.join root_href "catalog.json"))
     (catalog_type c).

Fixpoint relative_items (l : list Item.t) : result (list Item.t) :=
  match l with
  | [] => Ok []
  | i :: l' =>
      result_bind (Item.make_asset_hrefs_relative i) (fun i' =>
      result_bind (relative_items l') (fun l'' => Ok (i' :: l'')))
  end.

(** [catalog.make_all_asset_hrefs_relative()]. *)
Definition make_all_asset_hrefs_relative (c : t) : result t :=
  result_bind (relative_items (items c)) (fun l =>
  Ok (mk (id c) (description c) l (self_href c) (catalog_type c))).

(** The dictionary [catalog.to_dict()] builds for a self-contained
    root catalog: its root link and one link per item, relative. *)
Record dict : Type := mk_dict {
  d_id : string;
  d_description : string;
  d_links : list Link
}.

Definition item_links (self : string) (l : list Item.t) : list Link :=
  flat_map (fun i =>
              match Item.self_href i with
              | Some h => [mk_link "item" (make_relative_href h self)]
              | None => []
              end) l.

Definition to_dict (self : string) (c : t) : dict :=
  mk_dict (id c) (description c)
    (mk_link "root" (make_relative_href self self)
     :: item_links self (items c)).
End Catalog.

End Pystac.

(** ** The world: file system and console

    The file system is a finite map from absolute paths to regular files.
    Directories are not represented: creating one changes nothing in the
    map, a file can be written at any path, and a path exists when a
    file stands there. *)

Inductive file : Type :=
  | GeoTIFF (dataset : Rasterio.Dataset)
  | PNG (picture : Pyplot.Rendering)
  | Text (content : string)
  | StacItem (d : Pystac.Item.dict)
  | StacCatalog (d : Pystac.Catalog.dict).

(** A printed line: a text, or the f-string [f"{prefix}{e}"] over an
    exception. *)
Inductive line : Type :=
  | Print (text : string)
  | PrintExn (prefix : string) (e : exn).

Record world : Type := mk_world {
  fs : gmap string file;
  cwd : string;
  stdout : list line
}.

(** Computations that read and change the world and may raise. *)
Definition M (A : Type) : Type := world -> result (A * world).

#[global] Instance M_ret : MRet M := fun A a w => Ok (a, w).
#[global] Instance M_bind : MBind M := fun A B k c w =>
  match c w with
  | Ok (a, w') => k a w'
  | Raise e => Raise e
  end.

Definition raise {A} (e : exn) : M A := fun _ => Raise e.

(** A pure computation that may raise, run inside [M]. *)
Definition lift {A} (r : result A) : M A := fun w =>
  match r with
  | Ok a => Ok (a, w)
  | Raise e => Raise e
  end.

Definition with_fs (f : gmap string file) (w : world) : world :=
  mk_world f (cwd w) (stdout w).

Module IO.

Definition print (l : line) : M unit := fun w =>
  Ok (tt, mk_world (fs w) (cwd w) (stdout w ++ [l])%list).

(** [os.makedirs(name, exist_ok=True)]: nothing to do in a world
    without directories (the call fails when a regular file stands in the
    way, which the model does not show). *)
Definition os_makedirs (name : string) : M unit := mret tt.

(** [os.path.exists(path)]. *)
Definition os_path_exists (path : string) : M bool := fun w =>
  Ok (bool_decide (is_Some (fs w !! path)), w).

(** [os.rename(src, dst)]: the file moves, replacing what stood at
    [dst]. *)
Definition os_rename (src dst : string) : M unit := fun w =>
  match fs w !! src with
  | Some f => Ok (tt, with_fs (<[dst := f]> (delete src (fs w))) w)
  | None => Raise (FileNotFoundError src)
  end.

(** Writing a whole file, as [open(path, "w")] followed by the writes
    and the close, or as a library does when it saves. *)
Definition write_file (path : string) (f : file) : M unit := fun w =>
  Ok (tt, with_fs (<[path := f]> (fs w)) w).

(** [with rasterio.open(path) as src]: the dataset stored at [path].  Of
    the files of the model only [GeoTIFF] carries a dataset; what
    rasterio would read from a file of another kind (it opens a PNG
    picture too) is not modelled, and the model raises there.  The
    properties below are all about worlds with a [GeoTIFF] at the path. *)
Definition rasterio_open (path : string) : M Rasterio.Dataset := fun w =>
  match fs w !! path with
  | Some (GeoTIFF ds) => Ok (ds, w)
  | _ => Raise (RasterioIOError path)
  end.

(** [plt.savefig(fname, bbox_inches=bbox_inches, pad_inches=pad_inches)]
    of the current figure. *)
Definition plt_savefig (fname : string) (bbox_inches : string)
    (pad_inches : Z) (fig : Pyplot.Figure) : M unit :=
  write_file fname (PNG (Pyplot.mk_rendering fig bbox_inches pad_inches)).

(** [with open(path, "w") as f: json.dump(obj, f, indent=indent)]. *)
Definition json_dump (obj : Json.value) (path : string) (indent : nat)
  : M unit :=
  write_file path (Text (Json.dumps obj indent)).

(** [os.getcwd()]. *)
Definition os_getcwd : M string := fun w => Ok (cwd w, w).

(** [item.save_object()] inside a catalog whose file is [root_href]. *)
Definition save_item (root_href : string) (item : Pystac.Item.t)
  : M Pystac.Item.t :=
  match Pystac.Item.self_href item with
  | None => raise (STACError "Self HREF must be set")
  | Some self =>
      let '(d, item') := Pystac.Item.to_dict root_href self item in
      write_file self (StacItem d);;
      mret item'
  end.

Fixpoint save_items (root_href : string) (l : list Pystac.Item.t)
  : M (list Pystac.Item.t) :=
  match l with
  | [] => mret []
  | i :: l' =>
      i' ← save_item root_href i;
      l'' ← save_items root_href l';
      mret (i' :: l'')
  end.

(** [catalog.save(catalog_type=CatalogType.SELF_CONTAINED)]: every item
    file, then the catalog file, each at its self HREF. *)
Definition save (c : Pystac.Catalog.t) : M Pystac.Catalog.t :=
  match Pystac.Catalog.self_href c with
  | None => raise (STACError "Self HREF must be set")
  | Some self =>
      items ← save_items self (Pystac.Catalog.items c);
      let c' := Pystac.Catalog.mk (Pystac.Catalog.id c)
                  (Pystac.Catalog.description c) items (Some self)
                  Pystac.SELF_CONTAINED in
      write_file self (StacCatalog (Pystac.Catalog.to_dict self c'));;
      mret c'
  end.

End IO.

(** ** The script *)

Module Script.

Import Pystac.

(** *** Input paths and output structure *)

Definition tif_path : string :=
  "/home/vishnu/corestack_STAC/data/gobindpur_lulc_2023_2024.tif".
Definition qgis_style_path : string :=
  "/home/vishnu/corestack_STAC/data/style_file.qml".

Definition output_dir : string :=
  "/home/vishnu/corestack_STAC/output_catalog_lulc".
Definition item_id : string := "gobindpur-lulc".
Definition item_dir : string := PosixPath.join output_dir item_id.
Definition data_dir : string := PosixPath.dirname tif_path.

(** *** Step 1: read spatial info *)

Definition read_spatial_info : M (list float * Shapely.geometry) :=
  src ← IO.rasterio_open tif_path;
  let bounds := Rasterio.bounds src in
  let bbox := [Rasterio.left bounds; Rasterio.bottom bounds;
               Rasterio.right bounds; Rasterio.top bounds] in
  polygon ← lift (Shapely.box_star bbox);
  let geometry := Shapely.mapping polygon in
  mret (bbox, geometry).

(** *** Step 2: set date info *)

(** Truthiness of a variable that holds [None] or a string. *)
Definition truthy_str (v : option string) : bool :=
  match v with
  | Some s => str_truthy s
  | None => false
  end.

(** Truthiness of a variable that holds [None] or a [datetime] (every
    [datetime] object is true). *)
Definition truthy_dt (v : option Datetime.datetime) : bool :=
  match v with
  | Some _ => true
  | None => false
  end.

Definition parse_warning : string :=
  "⚠️ Failed to parse TIFFTAG_DATETIME: ".

(** The fallback range: [datetime(2023, 6, 1)] to
    [datetime(2024, 3, 31)]. *)
Definition fallback_start : result Datetime.datetime :=
  Datetime.new_date 2023 6 1.
Definition fallback_end : result Datetime.datetime :=
  Datetime.new_date 2024 3 31.

Definition set_date_info
  : M (option Datetime.datetime * option Datetime.datetime) :=
  let start_dt : option Datetime.datetime := None in
  let end_dt : option Datetime.datetime := None in
  src ← IO.rasterio_open tif_path;
  let tags := Rasterio.tags src in
  let date_str := tags !! "TIFFTAG_DATETIME" in
  '(start_dt, end_dt) ←
    (if truthy_str date_str then
       match Datetime.strptime (default EmptyString date_str) with
       | Ok dt => mret (Some dt, Some dt)
       | Raise e =>
           IO.print (PrintExn parse_warning e);;
           mret (start_dt, end_dt)
       end
     else mret (start_dt, end_dt));
  (* If no date from TIFF, use fallback *)
  if negb (truthy_dt start_dt) then
    start_dt ← lift fallback_start;
    end_dt ← lift fallback_end;
    mret (Some start_dt, Some end_dt)
  else mret (start_dt, end_dt).

(** *** Step 3: create catalog and item *)

(** [dt.isoformat()] on a variable that may hold [None]. *)
Definition isoformat_of (v : option Datetime.datetime) : result string :=
  match v with
  | Some dt => Ok (Datetime.isoformat dt)
  | None => Raise (AttributeError "isoformat")
  end.

Definition catalog_id : string := "gobindpur-lulc-catalog".
Definition catalog_description : string :=
  "STAC Catalog for Gobindpur LULC 2023-24 with metadata and thumbnail".

Definition create_catalog_and_item (geometry : Shapely.geometry)
    (bbox : list float) (start_dt end_dt : option Datetime.datetime)
  : M (Catalog.t * Item.t) :=
  let catalog := Catalog.new catalog_id catalog_description in
  start_iso ← lift (isoformat_of start_dt);
  end_iso ← lift (isoformat_of end_dt);
  item ← lift (Item.new item_id geometry bbox start_dt
                 [("start_datetime", Json.Str (start_iso +:+ "Z"));
                  ("end_datetime", Json.Str (end_iso +:+ "Z"))]);
  mret (catalog, item).

(** *** Step 4: add raster asset *)

Definition raster_asset : Asset.t :=
  Asset.new "../../data/gobindpur_lulc_2023_2024.tif"
    (Some "Gobindpur LULC Raster (GeoTIFF)")
    (Some MediaType.GEOTIFF)
    (Some ["data"; "download"]).

Definition add_raster_asset (item : Item.t) : M Item.t :=
  mret (Item.add_asset "raster-data" raster_asset item).

(** *** Step 5: add QGIS style if exists *)

Definition style_asset : Asset.t :=
  Asset.new "../../data/style_file.qml"
    (Some "QGIS Style File (QML)")
    (Some "application/xml")
    (Some ["style"; "download"]).

Definition add_qgis_style (item : Item.t) : M Item.t :=
  found ← IO.os_path_exists qgis_style_path;
  if found : bool then
    mret (Item.add_asset "qgis-style" style_asset item)
  else
    IO.print (Print "⚠️ QML file not found. Skipping style asset.");;
    mret item.

(** *** Step 6: generate and add thumbnail *)

Definition thumb_path : string := PosixPath.join data_dir "thumbnail.png".

Definition thumbnail_asset : Asset.t :=
  Asset.new "../../data/thumbnail.png"
    (Some "Thumbnail Preview")
    (Some "image/png")
    (Some ["thumbnail"]).

Definition add_thumbnail (item : Item.t) : M Item.t :=
  src ← IO.rasterio_open tif_path;
  array ← lift (Rasterio.read src 1);
  let fig := Pyplot.figure (3, 3) in
  let fig := Pyplot.axis "off" fig in
  let fig := Pyplot.imshow array "tab20" fig in
  IO.plt_savefig thumb_path "tight" 0 fig;;
  mret (Item.add_asset "thumbnail" thumbnail_asset item).

(** *** Step 7: add classification metadata *)

Definition lulc_class (value : Z) (name : string) : Json.value :=
  Json.Dict [("value", Json.Int value); ("name", Json.Str name)].

Definition lulc_classes : Json.value :=
  Json.List [lulc_class 1 "Water"; lulc_class 2 "Urban";
             lulc_class 3 "Forest"; lulc_class 4 "Cropland";
             lulc_class 5 "Barren"].

Definition legend_path : string := PosixPath.join data_dir "legend.json".

Definition legend_asset : Asset.t :=
  Asset.new "../../data/legend.json"
    (Some "LULC Legend (JSON)")
    (Some "application/json")
    (Some ["legend"]).

Definition add_classification_metadata (item : Item.t) : M Item.t :=
  let item := Item.set_property "classification:classes" lulc_classes item in
  IO.json_dump lulc_classes legend_path 2;;
  mret (Item.add_asset "legend" legend_asset item).

(** *** Step 8: final save *)

Definition final_save (catalog : Catalog.t) (item : Item.t) : M Catalog.t :=
  let catalog := Catalog.add_item item catalog in
  cwd ← IO.os_getcwd;
  let catalog := Catalog.normalize_hrefs output_dir cwd catalog in
  catalog ← lift (Catalog.make_all_asset_hrefs_relative catalog);
  IO.save catalog.

(** *** Rename item file *)

Definition default_item_path : string := PosixPath.join item_dir "item.json".
Definition custom_item_path : string :=
  PosixPath.join item_dir (item_id +:+ ".json").

Definition rename_item_file : M unit :=
  found ← IO.os_path_exists default_item_path;
  if found : bool then IO.os_rename default_item_path custom_item_path
  else mret tt.

Definition report : M unit :=
  IO.print (Print "✅ STAC catalog created with:");;
  IO.print (Print " - 📅 start/end datetime");;
  IO.print (Print " - 🖼️ thumbnail preview");;
  IO.print (Print " - 📘 LULC legend");;
  IO.print (Print ("📄 catalog.json: "
                   +:+ PosixPath.join output_dir "catalog.json"));;
  IO.print (Print ("📄 item: " +:+ custom_item_path)).

(** *** The whole script, up to the save and to the end *)

Definition build_and_save : M Catalog.t :=
  IO.os_makedirs item_dir;;
  '(bbox, geometry) ← read_spatial_info;
  '(start_dt, end_dt) ← set_date_info;
  '(catalog, item) ← create_catalog_and_item geometry bbox start_dt end_dt;
  item ← add_raster_asset item;
  item ← add_qgis_style item;
  item ← add_thumbnail item;
  item ← add_classification_metadata item;
  final_save catalog item.

Definition main : M Catalog.t :=
  catalog ← build_and_save;
  rename_item_file;;
  report;;
  mret catalog.

End Script.

(** * The run in closed form

    The values the steps of the script compute on a world that holds the
    raster, written with the functions of the models: the lemmas of the
    next part show that the script computes them. *)

(** The lines a computation adds to the console. *)
Definition printed (out : list line) (w : world) : world :=
  mk_world (fs w) (cwd w) (stdout w ++ out).

Module Forms.

Import Script Pystac.

(** Where [normalize_hrefs] puts the catalog file. *)
Definition catalog_path : string := PosixPath.join output_dir "catalog.json".

(** Step 1: the bounding box and the geometry of a dataset. *)
Definition bbox_of (ds : Rasterio.Dataset) : list float :=
  let b := Rasterio.bounds ds in
  [Rasterio.left b; Rasterio.bottom b; Rasterio.right b; Rasterio.top b].

Definition geometry_of (ds : Rasterio.Dataset) : Shapely.geometry :=
  let b := Rasterio.bounds ds in
  Shapely.mapping
    (Shapely.box (Rasterio.left b) (Rasterio.bottom b)
                 (Rasterio.right b) (Rasterio.top b)).


(** Step 2: the tag, the fallback dates and the outcomes. *)
Definition date_tag (ds : Rasterio.Dataset) : option string :=
  Rasterio.tags ds !! "TIFFTAG_DATETIME".

Definition range_start : Datetime.datetime :=
  Datetime.mk_datetime 2023 6 1 0 0 0 0.
Definition range_end : Datetime.datetime :=
  Datetime.mk_datetime 2024 3 31 0 0 0 0.

(** The four ways through step 2, with the dates it leaves in
    [start_dt] and [end_dt] and the lines it prints. *)
Inductive date_outcome (date_str : option string)
  : Datetime.datetime -> Datetime.datetime -> list line -> Prop :=
  | outcome_parsed s dt :
      date_str = Some s -> str_truthy s = true ->
      Datetime.strptime s = Ok dt ->
      date_outcome date_str dt dt []
  | outcome_malformed s e :
      date_str = Some s -> str_truthy s = true ->
      Datetime.strptime s = Raise e ->
      date_outcome date_str range_start range_end
        [PrintExn parse_warning e]
  | outcome_empty :
      date_str = Some EmptyString ->
      date_outcome date_str range_start range_end []
  | outcome_absent :
      date_str = None ->
      date_outcome date_str range_start range_end [].

(** Steps 3 to 7: the item as built, step after step; [found] tells
    whether the style file exists. *)
Definition new_item (ds : Rasterio.Dataset)
    (start_dt end_dt : Datetime.datetime) : Item.t :=
  Item.mk item_id (geometry_of ds) (bbox_of ds) (Some start_dt)
    [("start_datetime", Json.Str (Datetime.isoformat start_dt +:+ "Z"));
     ("end_datetime", Json.Str (Datetime.isoformat end_dt +:+ "Z"))]
    [] None.

Definition styled (found : bool) (item : Item.t) : Item.t :=
  if found then Item.add_asset "qgis-style" style_asset item else item.

Definition style_out (found : bool) : list line :=
  if found then []
  else [Print "⚠️ QML file not found. Skipping style asset."].

Definition built_item (ds : Rasterio.Dataset)
    (start_dt end_dt : Datetime.datetime) (found : bool) : Item.t :=
  Item.add_asset "legend" legend_asset
    (Item.set_property "classification:classes" lulc_classes
       (Item.add_asset "thumbnail" thumbnail_asset
          (styled found
             (Item.add_asset "raster-data" raster_asset
                (new_item ds start_dt end_dt))))).

(** What the run finds at the style path, and the two files it writes
    into the data directory. *)
Definition style_found (w : world) : bool :=
  bool_decide (is_Some (fs w !! qgis_style_path)).

Definition thumbnail (ds : Rasterio.Dataset) : file :=
  PNG (Pyplot.mk_rendering
         (Pyplot.imshow (Rasterio.band1 ds) "tab20"
            (Pyplot.axis "off" (Pyplot.figure (3, 3))))
         "tight" 0).

Definition legend : file := Text (Json.dumps lulc_classes 2).

(** Step 8: assets whose HREFs are all relative; the item once it has
    its self HREF, the item and the catalog after [save], and the two
    files [save] writes. *)
Definition relative_hrefs (assets : PyDict.t Asset.t) : bool :=
  forallb (fun kv => negb (is_absolute_href (Asset.href (snd kv)))) assets.

Definition normalized_item (item : Item.t) : Item.t :=
  Item.mk (Item.id item) (Item.geometry item) (Item.bbox item)
    (Item.datetime item) (Item.properties item) (Item.assets item)
    (Some custom_item_path).

Definition saved_item (item : Item.t) : Item.t :=
  snd (Item.to_dict catalog_path custom_item_path (normalized_item item)).

Definition item_file (item : Item.t) : file :=
  StacItem
    (fst (Item.to_dict catalog_path custom_item_path (normalized_item item))).

Definition saved_catalog (item : Item.t) : Catalog.t :=
  Catalog.mk catalog_id catalog_description [saved_item item]
    (Some catalog_path) SELF_CONTAINED.

Definition catalog_file (item : Item.t) : file :=
  StacCatalog (Catalog.to_dict catalog_path (saved_catalog item)).

(** The file system after the save, and after the rename. *)
Definition saved_fs (ds : Rasterio.Dataset) (item : Item.t)
    (m : gmap string file) : gmap string file :=
  <[catalog_path := catalog_file item]>
    (<[custom_item_path := item_file item]>
       (<[legend_path := legend]>
          (<[thumb_path := thumbnail ds]> m))).

Definition renamed_fs (m : gmap string file) : gmap string file :=
  match m !! default_item_path with
  | Some f => <[custom_item_path := f]> (delete default_item_path m)
  | None => m
  end.

(** The closing report. *)
Definition report_lines : list line :=
  [Print "✅ STAC catalog created with:";
   Print " - 📅 start/end datetime";
   Print " - 🖼️ thumbnail preview";
   Print " - 📘 LULC legend";
   Print ("📄 catalog.json: " +:+ catalog_path);
   Print ("📄 item: " +:+ custom_item_path)].

End Forms.

(** ** Sample worlds *)

Module Sample.

Import Script.

(** A raster with bounds (10, 20, 30, 40) and a well-formed tag. *)
Definition dataset : Rasterio.Dataset :=
  Rasterio.mk_dataset (Rasterio.mk_bounds 10 20 30 40)
    {[ "TIFFTAG_DATETIME" := "2023:06:15 00:00:00" ]}
    [[1; 2]; [3; 4]] [].

(** The raster and the style file. *)
Definition styled_world : world :=
  mk_world (<[qgis_style_path := Text "<qgis/>"]>
              {[ tif_path := GeoTIFF dataset ]})
           "/home/vishnu" [].

(** The same raster with an empty tag, no style file, and an
    [item.json] left in the item directory. *)
Definition empty_tag_dataset : Rasterio.Dataset :=
  Rasterio.mk_dataset (Rasterio.mk_bounds 10 20 30 40)
    {[ "TIFFTAG_DATETIME" := EmptyString ]}
    [[1; 2]; [3; 4]] [].

Definition stale_world : world :=
  mk_world (<[default_item_path := Text "stale"]>
              {[ tif_path := GeoTIFF empty_tag_dataset ]})
           "/home/vishnu" [].

(** A raster whose tag is not in the format, alone on the disk. *)
Definition malformed_dataset : Rasterio.Dataset :=
  Rasterio.mk_dataset (Rasterio.mk_bounds 10 20 30 40)
    {[ "TIFFTAG_DATETIME" := "2023-06-15" ]}
    [[5; 5]; [1; 2]] [[[0]]].

Definition bare_world : world :=
  mk_world {[ tif_path := GeoTIFF malformed_dataset ]} "/home/vishnu" [].

(** The same bounds and tag as [dataset] with other pixels and one more
    tag, beside another style file and a file the script does not know. *)
Definition other_dataset : Rasterio.Dataset :=
  Rasterio.mk_dataset (Rasterio.mk_bounds 10 20 30 40)
    (<["AREA_OR_POINT" := "Area"]>
       {[ "TIFFTAG_DATETIME" := "2023:06:15 00:00:00" ]})
    [[7; 7]; [7; 7]] [].

Definition other_world : world :=
  mk_world (<["/home/vishnu/notes.txt" := Text "notes"]>
              (<[qgis_style_path := Text "<qgis version=3/>"]>
                 {[ tif_path := GeoTIFF other_dataset ]}))
           "/tmp" [Print "earlier line"].



(** A disk with no raster. *)
Definition empty_world : world := mk_world ∅ "/home/vishnu" [].

End Sample.

(** * Properties *)

(** ** Stepping through the monad *)

Lemma bind_ok {A B} (c : M A) (k : A -> M B) (w w' : world) (a : A) :
  c w = Ok (a, w') -> (c ≫= k) w = k a w'.
Proof. unfold mbind, M_bind. now intros ->. Qed.

Lemma bind_raise {A B} (c : M A) (k : A -> M B) (w : world) (e : exn) :
  c w = Raise e -> (c ≫= k) w = Raise e.
Proof. unfold mbind, M_bind. now intros ->. Qed.

Lemma ret_ok {A} (a : A) (w : world) : (mret a : M A) w = Ok (a, w).
Proof. reflexivity. Qed.

Lemma lift_ok {A} (r : result A) (a : A) (w : world) :
  r = Ok a -> lift r w = Ok (a, w).
Proof. now intros ->. Qed.

Lemma printed_nil w : printed [] w = w.
Proof. destruct w. unfold printed. simpl. now rewrite app_nil_r. Qed.

Lemma print_ok l w : IO.print l w = Ok (tt, printed [l] w).
Proof. reflexivity. Qed.

(** ** Dictionaries *)

Lemma get_set_eq {V} (k : string) (v : V) (d : PyDict.t V) :
  PyDict.get k (PyDict.set k v d) = Some v.
Proof.
  induction d as [|[k' v'] d IH]; simpl.
  - now rewrite String.eqb_refl.
  - destruct (String.eqb k' k) eqn:E; simpl; rewrite E;
      [reflexivity|exact IH].
Qed.

Lemma get_set_ne {V} (k k' : string) (v : V) (d : PyDict.t V) :
  k <> k' -> PyDict.get k' (PyDict.set k v d) = PyDict.get k' d.
Proof.
  intros N. induction d as [|[k0 v0] d IH]; simpl.
  - destruct (String.eqb k k') eqn:E; [|reflexivity].
    apply String.eqb_eq in E. contradiction.
  - destruct (String.eqb k0 k) eqn:E; simpl.
    + apply String.eqb_eq in E. subst k0.
      destruct (String.eqb k k') eqn:E'; [|reflexivity].
      apply String.eqb_eq in E'. contradiction.
    + destruct (String.eqb k0 k'); [reflexivity|exact IH].
Qed.

(** A new key goes to the end: the insertion order is kept. *)
Lemma keys_set_new {V} (k : string) (v : V) (d : PyDict.t V) :
  PyDict.get k d = None ->
  PyDict.keys (PyDict.set k v d) = (PyDict.keys d ++ [k])%list.
Proof.
  induction d as [|[k0 v0] d IH]; simpl; [reflexivity|].
  destruct (String.eqb k0 k); [discriminate|].
  intros E. simpl. f_equal. now apply IH.
Qed.

(** ** HREFs under [normalize_hrefs] and [make_all_asset_hrefs_relative] *)

Lemma map_pair_id {A B} (l : list (A * B)) :
  map (fun kv => (fst kv, snd kv)) l = l.
Proof.
  induction l as [|[a b] l IH]; simpl; [reflexivity|]. now rewrite IH.
Qed.

(** An item that has no self HREF yet keeps its assets when it gets one. *)
Lemma set_self_href_first (h : string) (item : Pystac.Item.t) :
  Pystac.Item.self_href item = None ->
  Pystac.Item.set_self_href h item
  = Pystac.Item.mk (Pystac.Item.id item) (Pystac.Item.geometry item)
      (Pystac.Item.bbox item) (Pystac.Item.datetime item)
      (Pystac.Item.properties item) (Pystac.Item.assets item) (Some h).
Proof.
  intros E. unfold Pystac.Item.set_self_href. rewrite E.
  now rewrite map_pair_id.
Qed.

(** Relative asset HREFs are left as they are. *)
Lemma relative_assets_unchanged (self : option string)
    (l : PyDict.t Pystac.Asset.t) :
  Forms.relative_hrefs l = true -> Pystac.Item.relative_assets self l = Ok l.
Proof.
  induction l as [|[k a] l IH]; simpl; [reflexivity|].
  intros R. apply andb_prop in R as [Ra Rl].
  apply negb_true_iff in Ra. rewrite Ra. simpl.
  now rewrite (IH Rl).
Qed.

Module ScriptFacts.

Import Script Pystac Forms.

(** *** The paths of the script, evaluated *)

Lemma item_dir_eq :
  item_dir = "/home/vishnu/corestack_STAC/output_catalog_lulc/gobindpur-lulc".
Proof. reflexivity. Qed.

Lemma data_dir_eq : data_dir = "/home/vishnu/corestack_STAC/data".
Proof. reflexivity. Qed.

Lemma thumb_path_eq :
  thumb_path = "/home/vishnu/corestack_STAC/data/thumbnail.png".
Proof. reflexivity. Qed.

Lemma legend_path_eq :
  legend_path = "/home/vishnu/corestack_STAC/data/legend.json".
Proof. reflexivity. Qed.

Ltac paths_differ :=
  let H := fresh in intros H; vm_compute in H; discriminate H.

(** *** Step 1 *)

Lemma rasterio_open_ok w ds :
  fs w !! tif_path = Some (GeoTIFF ds) ->
  IO.rasterio_open tif_path w = Ok (ds, w).
Proof. unfold IO.rasterio_open. now intros ->. Qed.

Lemma read_spatial_info_ok w ds :
  fs w !! tif_path = Some (GeoTIFF ds) ->
  read_spatial_info w = Ok ((bbox_of ds, geometry_of ds), w).
Proof.
  intros H. unfold read_spatial_info.
  rewrite (bind_ok _ _ _ _ _ (rasterio_open_ok _ _ H)).
  reflexivity.
Qed.

(** *** Step 2 *)

Lemma fallback_start_ok : fallback_start = Ok range_start.
Proof. reflexivity. Qed.

Lemma fallback_end_ok : fallback_end = Ok range_end.
Proof. reflexivity. Qed.

Lemma date_outcome_total (date_str : option string) :
  exists start_dt end_dt out, date_outcome date_str start_dt end_dt out.
Proof.
  destruct date_str as [s|]; [|eauto using outcome_absent].
  destruct s as [|c s]; [eauto using outcome_empty|].
  destruct (Datetime.strptime (String c s)) as [dt|e] eqn:E.
  - exists dt, dt, []. now apply (outcome_parsed _ (String c s)).
  - do 3 eexists. now apply (outcome_malformed _ (String c s) e).
Qed.

Lemma set_date_info_ok w ds start_dt end_dt out :
  fs w !! tif_path = Some (GeoTIFF ds) ->
  date_outcome (date_tag ds) start_dt end_dt out ->
  set_date_info w = Ok ((Some start_dt, Some end_dt), printed out w).
Proof.
  intros H Hd. unfold set_date_info.
  rewrite (bind_ok _ _ _ _ _ (rasterio_open_ok _ _ H)).
  fold (date_tag ds).
  destruct Hd as [s dt E T P | s e E T P | E | E]; rewrite E; simpl.
  - rewrite T, P. unfold mbind, M_bind, mret, M_ret. simpl.
    now rewrite printed_nil.
  - rewrite T, P. unfold mbind, M_bind, mret, M_ret. simpl.
    reflexivity.
  - unfold mbind, M_bind, mret, M_ret. simpl. now rewrite printed_nil.
  - unfold mbind, M_bind, mret, M_ret. simpl. now rewrite printed_nil.
Qed.

(** *** Steps 3 to 7: the item before the save *)

Lemma create_catalog_and_item_ok ds start_dt end_dt w :
  create_catalog_and_item (geometry_of ds) (bbox_of ds)
    (Some start_dt) (Some end_dt) w
  = Ok ((Catalog.new catalog_id catalog_description,
         new_item ds start_dt end_dt), w).
Proof. reflexivity. Qed.

Lemma add_qgis_style_ok item w :
  add_qgis_style item w
  = Ok (styled (style_found w) item, printed (style_out (style_found w)) w).
Proof.
  unfold add_qgis_style, style_found, IO.os_path_exists, mbind, M_bind.
  destruct (bool_decide (is_Some (fs w !! qgis_style_path))); simpl.
  - now rewrite printed_nil.
  - reflexivity.
Qed.

Lemma add_thumbnail_ok item w ds :
  fs w !! tif_path = Some (GeoTIFF ds) ->
  add_thumbnail item w
  = Ok (Item.add_asset "thumbnail" thumbnail_asset item,
        with_fs (<[thumb_path := thumbnail ds]> (fs w)) w).
Proof.
  intros H. unfold add_thumbnail.
  rewrite (bind_ok _ _ _ _ _ (rasterio_open_ok _ _ H)).
  reflexivity.
Qed.

Lemma add_classification_metadata_ok item w :
  add_classification_metadata item w
  = Ok (Item.add_asset "legend" legend_asset
          (Item.set_property "classification:classes" lulc_classes item),
        with_fs (<[legend_path := legend]> (fs w)) w).
Proof. reflexivity. Qed.

(** *** Step 8: the catalog that is saved *)

(** A new item whose asset HREFs are relative goes through
    [add_item], [normalize_hrefs] and [make_all_asset_hrefs_relative]
    with its assets untouched; its file is item_id/item_id.json under
    the output directory. *)
Lemma normalize_relative (item : Item.t) (cwd : string) :
  Item.self_href item = None ->
  relative_hrefs (Item.assets item) = true ->
  Catalog.make_all_asset_hrefs_relative
    (Catalog.normalize_hrefs output_dir cwd
       (Catalog.add_item item (Catalog.new catalog_id catalog_description)))
  = Ok (Catalog.mk catalog_id catalog_description
          [Item.mk (Item.id item) (Item.geometry item) (Item.bbox item)
             (Item.datetime item) (Item.properties item) (Item.assets item)
             (Some (PosixPath.join (PosixPath.join output_dir (Item.id item))
                      (Item.id item +:+ ".json")))]
          (Some catalog_path) ABSOLUTE_PUBLISHED).
Proof.
  intros E R.
  unfold Catalog.normalize_hrefs, Catalog.add_item, Catalog.new. simpl.
  rewrite (set_self_href_first _ _ E).
  unfold Catalog.make_all_asset_hrefs_relative. simpl.
  unfold Item.make_asset_hrefs_relative. simpl.
  now rewrite (relative_assets_unchanged _ _ R).
Qed.

Lemma normalize_ok ds start_dt end_dt found cwd :
  let item := built_item ds start_dt end_dt found in
  Catalog.make_all_asset_hrefs_relative
    (Catalog.normalize_hrefs output_dir cwd
       (Catalog.add_item item (Catalog.new catalog_id catalog_description)))
  = Ok (Catalog.mk catalog_id catalog_description [normalized_item item]
          (Some catalog_path) ABSOLUTE_PUBLISHED).
Proof.
  intros item. rewrite normalize_relative.
  - subst item. destruct found; reflexivity.
  - subst item. destruct found; reflexivity.
  - subst item. destruct found; reflexivity.
Qed.

Lemma final_save_ok ds start_dt end_dt found w :
  let item := built_item ds start_dt end_dt found in
  final_save (Catalog.new catalog_id catalog_description) item w
  = Ok (saved_catalog item,
        with_fs (<[catalog_path := catalog_file item]>
                   (<[custom_item_path := item_file item]> (fs w))) w).
Proof.
  intros item. unfold final_save.
  unfold mbind at 1, M_bind at 1, IO.os_getcwd.
  unfold mbind at 1, M_bind at 1, lift. subst item.
  rewrite normalize_ok.
  destruct found; reflexivity.
Qed.

(** *** The script up to the save *)

Lemma build_and_save_ok w ds start_dt end_dt out :
  fs w !! tif_path = Some (GeoTIFF ds) ->
  date_outcome (date_tag ds) start_dt end_dt out ->
  let item := built_item ds start_dt end_dt (style_found w) in
  build_and_save w
  = Ok (saved_catalog item,
        mk_world (saved_fs ds item (fs w)) (cwd w)
          (stdout w ++ out ++ style_out (style_found w))).
Proof.
  intros H Hd item. unfold build_and_save.
  unfold IO.os_makedirs. rewrite (bind_ok _ _ w w tt) by reflexivity.
  rewrite (bind_ok _ _ _ _ _ (read_spatial_info_ok _ _ H)).
  rewrite (bind_ok _ _ _ _ _ (set_date_info_ok _ _ _ _ _ H Hd)).
  rewrite (bind_ok _ _ _ _ _ (create_catalog_and_item_ok _ _ _ _)).
  unfold add_raster_asset. rewrite (bind_ok _ _ _ _ _ (ret_ok _ _)).
  rewrite (bind_ok _ _ _ _ _ (add_qgis_style_ok _ _)).
  rewrite (bind_ok _ _ _ _ _
             (add_thumbnail_ok _ (printed _ (printed out w)) ds H)).
  rewrite (bind_ok _ _ _ _ _ (add_classification_metadata_ok _ _)).
  change (style_found (printed out w)) with (style_found w).
  fold (built_item ds start_dt end_dt (style_found w)). fold item.
  subst item. rewrite final_save_ok.
  unfold saved_fs, with_fs, printed. simpl.
  now rewrite <- app_assoc.
Qed.

(** *** The rename and the report *)

Lemma rename_item_file_ok w :
  rename_item_file w = Ok (tt, with_fs (renamed_fs (fs w)) w).
Proof.
  unfold rename_item_file, renamed_fs, IO.os_path_exists, IO.os_rename,
    mbind, M_bind.
  destruct (fs w !! default_item_path) as [f|] eqn:E.
  - rewrite bool_decide_eq_true_2 by eauto. now rewrite E.
  - rewrite bool_decide_eq_false_2 by (intros [? ?]; discriminate).
    destruct w; reflexivity.
Qed.

Lemma report_ok w : report w = Ok (tt, printed report_lines w).
Proof.
  unfold report, IO.print, mbind, M_bind, printed. simpl.
  now rewrite <- !app_assoc.
Qed.

(** *** The whole run *)

Lemma main_ok w ds start_dt end_dt out :
  fs w !! tif_path = Some (GeoTIFF ds) ->
  date_outcome (date_tag ds) start_dt end_dt out ->
  let item := built_item ds start_dt end_dt (style_found w) in
  main w
  = Ok (saved_catalog item,
        mk_world (renamed_fs (saved_fs ds item (fs w))) (cwd w)
          (stdout w ++ out ++ style_out (style_found w) ++ report_lines)).
Proof.
  intros H Hd item. unfold main.
  rewrite (bind_ok _ _ _ _ _ (build_and_save_ok _ _ _ _ _ H Hd)).
  rewrite (bind_ok _ _ _ _ _ (rename_item_file_ok _)).
  rewrite (bind_ok _ _ _ _ _ (report_ok _)).
  unfold printed, with_fs. simpl.
  now rewrite <- !app_assoc.
Qed.

(** The save writes the item at item_id/item_id.json: a file stands at
    item_id/item.json after the save only if it stood there before the
    run. *)
Lemma save_leaves_default_item_path w ds start_dt end_dt out :
  fs w !! tif_path = Some (GeoTIFF ds) ->
  date_outcome (date_tag ds) start_dt end_dt out ->
  forall c saved,
    build_and_save w = Ok (c, saved) ->
    fs saved !! default_item_path = fs w !! default_item_path.
Proof.
  intros H Hd c saved B.
  rewrite (build_and_save_ok w ds _ _ _ H Hd) in B.
  injection B as _ <-. simpl.
  unfold saved_fs. now rewrite !lookup_insert_ne by paths_differ.
Qed.

End ScriptFacts.

Module ItemFacts.

Import Script Pystac Forms ScriptFacts.

Section Saved.

Variables (ds : Rasterio.Dataset) (start_dt end_dt : Datetime.datetime).
Variable found : bool.

Let item := saved_item (built_item ds start_dt end_dt found).

Lemma saved_items :
  Catalog.items (saved_catalog (built_item ds start_dt end_dt found))
  = [item].
Proof. reflexivity. Qed.

Lemma saved_id : Item.id item = item_id.
Proof. subst item. destruct found; reflexivity. Qed.

Lemma saved_bbox : Item.bbox item = bbox_of ds.
Proof. subst item. destruct found; reflexivity. Qed.


Lemma saved_datetime : Item.datetime item = Some start_dt.
Proof. subst item. destruct found; reflexivity. Qed.

Lemma saved_self_href : Item.self_href item = Some custom_item_path.
Proof. subst item. destruct found; reflexivity. Qed.

Lemma saved_properties :
  Item.properties item
  = [("start_datetime", Json.Str (Datetime.isoformat start_dt +:+ "Z"));
     ("end_datetime", Json.Str (Datetime.isoformat end_dt +:+ "Z"));
     ("classification:classes", lulc_classes);
     ("datetime", Json.Str (Datetime.isoformat start_dt +:+ "Z"))].
Proof. subst item. destruct found; reflexivity. Qed.

Lemma saved_assets :
  Item.assets item
  = (("raster-data", raster_asset)
     :: (if found then [("qgis-style", style_asset)] else [])
     ++ [("thumbnail", thumbnail_asset); ("legend", legend_asset)])%list.
Proof. subst item. destruct found; reflexivity. Qed.

End Saved.

(** *** Lookups in the file system the run leaves *)

Lemma renamed_fs_other (m : gmap string file) (p : string) :
  p <> custom_item_path -> p <> default_item_path ->
  renamed_fs m !! p = m !! p.
Proof.
  intros Hc Hd. unfold renamed_fs.
  destruct (m !! default_item_path); [|reflexivity].
  rewrite lookup_insert_ne by congruence.
  now rewrite lookup_delete_ne by congruence.
Qed.

Lemma saved_fs_thumb ds item (m : gmap string file) :
  saved_fs ds item m !! thumb_path = Some (thumbnail ds).
Proof.
  unfold saved_fs.
  rewrite !lookup_insert_ne by paths_differ.
  apply lookup_insert_eq.
Qed.

Lemma saved_fs_legend ds item (m : gmap string file) :
  saved_fs ds item m !! legend_path = Some legend.
Proof.
  unfold saved_fs.
  rewrite !lookup_insert_ne by paths_differ.
  apply lookup_insert_eq.
Qed.

Lemma saved_fs_item ds item (m : gmap string file) :
  saved_fs ds item m !! custom_item_path = Some (item_file item).
Proof.
  unfold saved_fs.
  rewrite lookup_insert_ne by paths_differ.
  apply lookup_insert_eq.
Qed.

Lemma saved_fs_catalog ds item (m : gmap string file) :
  saved_fs ds item m !! catalog_path = Some (catalog_file item).
Proof. unfold saved_fs. apply lookup_insert_eq. Qed.

Lemma saved_fs_other ds item (m : gmap string file) (p : string) :
  p <> catalog_path -> p <> custom_item_path ->
  p <> legend_path -> p <> thumb_path ->
  saved_fs ds item m !! p = m !! p.
Proof.
  intros. unfold saved_fs. now rewrite !lookup_insert_ne by congruence.
Qed.

End ItemFacts.


(** ** Date-times: what the constructor and [strptime] return, and their
    order *)

Lemma new_valid (y m d h mi s us : Z) (dt : Datetime.datetime) :
  Datetime.new y m d h mi s us = Ok dt -> Datetime.valid dt.
Proof.
  unfold Datetime.new, Datetime.valid, result_bind.
  destruct (Datetime.check_date_fields y m d) as [[]|] eqn:D;
    [|discriminate].
  destruct (Datetime.check_time_fields h mi s us) as [[]|] eqn:T;
    [|discriminate].
  intros [= <-]. now split.
Qed.

Lemma strptime_valid (s : string) (dt : Datetime.datetime) :
  Datetime.strptime s = Ok dt -> Datetime.valid dt.
Proof.
  unfold Datetime.strptime.
  destruct (Regex.re_match Datetime.format_regex s) as [[found rest]|];
    [|discriminate].
  destruct (str_truthy rest); [discriminate|].
  unfold result_bind at 1.
  destruct (Datetime.check_date_fields _ _ _); [|discriminate].
  apply new_valid.
Qed.

Lemma lex_compare_refl (l : list Z) : Datetime.lex_compare l l = Eq.
Proof.
  induction l as [|x l IH]; [reflexivity|].
  simpl. now rewrite Z.compare_refl.
Qed.

Lemma compare_refl_le (dt : Datetime.datetime) : Datetime.le dt dt.
Proof.
  unfold Datetime.le, Datetime.compare. now rewrite lex_compare_refl.
Qed.

(** ** The claims *)

Module Claims.

Import Script Pystac Forms ScriptFacts ItemFacts.

(** *** The temporal range (step 2) *)

(** C1. Step 2 always leaves two dates.  When the TIFFTAG_DATETIME tag
    is present and parses under the format, both are the parsed
    date-time; for any other tag value, absent or malformed, they are
    datetime(2023, 6, 1) and datetime(2024, 3, 31), the first strictly
    before the second. *)
Theorem C1_parsed_or_fallback (w : world) (ds : Rasterio.Dataset) :
  fs w !! tif_path = Some (GeoTIFF ds) ->
  exists start_dt end_dt w',
    set_date_info w = Ok ((Some start_dt, Some end_dt), w') /\
    (forall s dt,
        Rasterio.tags ds !! "TIFFTAG_DATETIME" = Some s ->
        Datetime.strptime s = Ok dt ->
        start_dt = dt /\ end_dt = dt) /\
    ((forall s dt,
         Rasterio.tags ds !! "TIFFTAG_DATETIME" = Some s ->
         Datetime.strptime s <> Ok dt) ->
     Datetime.new_date 2023 6 1 = Ok start_dt /\
     Datetime.new_date 2024 3 31 = Ok end_dt /\
     Datetime.lt start_dt end_dt).
Proof.
  intros H.
  destruct (date_outcome_total (date_tag ds)) as (s0 & e0 & out & Hd).
  exists s0, e0, (printed out w).
  split; [now apply (set_date_info_ok w ds)|].
  unfold date_tag in Hd.
  inversion Hd as [s dt E T P | s e E T P | E | E]; subst.
  - split.
    + intros s' dt' E' P'. rewrite E in E'. injection E' as <-.
      rewrite P in P'. now injection P' as <-.
    + intros N. now destruct (N s e0 E P).
  - split.
    + intros s' dt' E' P'. rewrite E in E'. injection E' as <-.
      rewrite P in P'. discriminate P'.
    + intros _. repeat split.
  - split.
    + intros s' dt' E' P'. rewrite E in E'. injection E' as <-.
      discriminate P'.
    + intros _. repeat split.
  - split.
    + intros s' dt' E' P'. rewrite E in E'. discriminate E'.
    + intros _. repeat split.
Qed.

Lemma C1_parsed_or_fallback_witness :
  exists w',
    set_date_info Sample.styled_world
    = Ok ((Some (Datetime.mk_datetime 2023 6 15 0 0 0 0),
           Some (Datetime.mk_datetime 2023 6 15 0 0 0 0)), w').
Proof.
  destruct (C1_parsed_or_fallback Sample.styled_world Sample.dataset)
    as (start_dt & end_dt & w' & R & P & _).
  - reflexivity.
  - exists w'.
    destruct (P "2023:06:15 00:00:00"
                (Datetime.mk_datetime 2023 6 15 0 0 0 0)) as [-> ->].
    + reflexivity.
    + reflexivity.
    + exact R.
Defined.

(** C9. Whatever the tag holds, step 2 ends with both dates set and
    ordered, and exactly one of the two outcomes holds: the pair of the
    parsed date-time, or the pair of the fallback dates. *)
Theorem C9_both_dates_set_and_ordered (w : world) (ds : Rasterio.Dataset) :
  fs w !! tif_path = Some (GeoTIFF ds) ->
  exists start_dt end_dt w',
    set_date_info w = Ok ((Some start_dt, Some end_dt), w') /\
    Datetime.valid start_dt /\ Datetime.valid end_dt /\
    Datetime.le start_dt end_dt /\
    let parsed_pair :=
      exists s, Rasterio.tags ds !! "TIFFTAG_DATETIME" = Some s /\
                Datetime.strptime s = Ok start_dt /\ end_dt = start_dt in
    let fallback_pair :=
      Datetime.new_date 2023 6 1 = Ok start_dt /\
      Datetime.new_date 2024 3 31 = Ok end_dt in
    (parsed_pair \/ fallback_pair) /\ ~ (parsed_pair /\ fallback_pair).
Proof.
  intros H.
  destruct (date_outcome_total (date_tag ds)) as (s0 & e0 & out & Hd).
  exists s0, e0, (printed out w).
  split; [now apply (set_date_info_ok w ds)|].
  assert (X : ~ ((exists s : string,
                     Rasterio.tags ds !! "TIFFTAG_DATETIME" = Some s /\
                     Datetime.strptime s = Ok s0 /\ e0 = s0) /\
                 Datetime.new_date 2023 6 1 = Ok s0 /\
                 Datetime.new_date 2024 3 31 = Ok e0)).
  { intros [(s & _ & _ & ->) [A B]]. rewrite <- A in B. discriminate B. }
  assert (F : Datetime.valid range_start /\ Datetime.valid range_end /\
              Datetime.le range_start range_end).
  { split; [split; reflexivity|]. split; [split; reflexivity|discriminate]. }
  unfold date_tag in Hd.
  destruct Hd as [s dt E T P | s e E T P | E | E].
  - pose proof (strptime_valid s dt P) as V.
    split; [exact V|]. split; [exact V|].
    split; [apply compare_refl_le|]. split; [|exact X].
    left. now exists s.
  - destruct F as (A & B & L). repeat (split; [assumption|]).
    split; [|exact X]. now right.
  - destruct F as (A & B & L). repeat (split; [assumption|]).
    split; [|exact X]. now right.
  - destruct F as (A & B & L). repeat (split; [assumption|]).
    split; [|exact X]. now right.
Qed.

Lemma C9_both_dates_set_and_ordered_witness :
  exists start_dt end_dt w',
    set_date_info Sample.stale_world
    = Ok ((Some start_dt, Some end_dt), w') /\
    Datetime.le start_dt end_dt.
Proof.
  destruct (C9_both_dates_set_and_ordered Sample.stale_world
              Sample.empty_tag_dataset)
    as (start_dt & end_dt & w' & R & _ & _ & L & _).
  - reflexivity.
  - exists start_dt, end_dt, w'. split; [exact R|exact L].
Defined.

(** C10. A tag that is present but empty counts as false in the test
    of step 2: nothing is parsed, no warning is printed, and the run
    uses the fallback range, with the same dates, the same catalog and
    the same console lines as when the raster has no such tag. *)
Theorem C10_empty_tag_like_absent (w : world) (ds : Rasterio.Dataset) :
  fs w !! tif_path = Some (GeoTIFF ds) ->
  Rasterio.tags ds !! "TIFFTAG_DATETIME" = Some EmptyString ->
  let untagged :=
    Rasterio.mk_dataset (Rasterio.bounds ds)
      (delete "TIFFTAG_DATETIME" (Rasterio.tags ds))
      (Rasterio.band1 ds) (Rasterio.more_bands ds) in
  let w0 := with_fs (<[tif_path := GeoTIFF untagged]> (fs w)) w in
  truthy_str (Rasterio.tags ds !! "TIFFTAG_DATETIME") = false /\
  exists start_dt end_dt,
    Datetime.new_date 2023 6 1 = Ok start_dt /\
    Datetime.new_date 2024 3 31 = Ok end_dt /\
    set_date_info w = Ok ((Some start_dt, Some end_dt), w) /\
    set_date_info w0 = Ok ((Some start_dt, Some end_dt), w0) /\
    exists c w1 w2 out,
      main w = Ok (c, w1) /\ main w0 = Ok (c, w2) /\
      stdout w1 = (stdout w ++ out)%list /\ stdout w2 = stdout w1 /\
      forall prefix e, PrintExn prefix e ∉ out.
Proof.
  intros H E untagged w0.
  assert (H0 : fs w0 !! tif_path = Some (GeoTIFF untagged))
    by apply lookup_insert_eq.
  assert (O : date_outcome (date_tag ds) range_start range_end [])
    by now apply outcome_empty.
  assert (O0 : date_outcome (date_tag untagged) range_start range_end []).
  { apply outcome_absent. apply lookup_delete_eq. }
  assert (F : style_found w0 = style_found w).
  { unfold style_found, w0. simpl.
    now rewrite lookup_insert_ne by paths_differ. }
  split; [now rewrite E|].
  exists range_start, range_end. repeat split.
  - rewrite (set_date_info_ok w ds _ _ _ H O). now rewrite printed_nil.
  - rewrite (set_date_info_ok w0 untagged _ _ _ H0 O0).
    now rewrite printed_nil.
  - eexists _, _, _, (style_out (style_found w) ++ report_lines)%list.
    split; [apply (main_ok w ds _ _ _ H O)|].
    split; [rewrite (main_ok w0 untagged _ _ _ H0 O0), F; reflexivity|].
    repeat split.
    intros prefix e. unfold style_out, report_lines.
    destruct (style_found w); simpl; intros X;
      repeat (apply elem_of_cons in X as [X|X]; [discriminate X|]);
      now apply elem_of_nil in X.
Qed.

Lemma C10_empty_tag_like_absent_witness :
  set_date_info Sample.stale_world
  = Ok ((Some (Datetime.mk_datetime 2023 6 1 0 0 0 0),
         Some (Datetime.mk_datetime 2024 3 31 0 0 0 0)),
        Sample.stale_world).
Proof.
  destruct (C10_empty_tag_like_absent Sample.stale_world
              Sample.empty_tag_dataset)
    as (_ & start_dt & end_dt & A & B & R & _).
  - reflexivity.
  - reflexivity.
  - injection A as <-. injection B as <-. exact R.
Defined.

(** *** The item and the files of a whole run *)

(** The run on a world that holds the raster: the dates of step 2 and
    the result of [main], as [main_ok] gives them. *)
Ltac run_main w ds H start_dt end_dt out Hd Hr :=
  destruct (date_outcome_total (date_tag ds))
    as (start_dt & end_dt & out & Hd);
  pose proof (main_ok w ds start_dt end_dt out H Hd) as Hr;
  cbv zeta in Hr.




(** C4. The item of a run always has the asset "raster-data"; it has
    the asset "qgis-style" exactly when a file stands at the style path
    when the run starts.  Without it the run prints the warning and goes
    on to the end. *)
Theorem C4_style_asset_iff_file (w : world) (ds : Rasterio.Dataset) :
  fs w !! tif_path = Some (GeoTIFF ds) ->
  exists c w' item out,
    main w = Ok (c, w') /\ Catalog.items c = [item] /\
    PyDict.get "raster-data" (Item.assets item) = Some raster_asset /\
    (PyDict.contains "qgis-style" (Item.assets item) = true
     <-> is_Some (fs w !! qgis_style_path)) /\
    stdout w' = (stdout w ++ out)%list /\
    (Print "⚠️ QML file not found. Skipping style asset." ∈ out
     <-> fs w !! qgis_style_path = None).
Proof.
  intros H.
  run_main w ds H start_dt end_dt out Hd R.
  eexists _, _, _.
  exists (out ++ style_out (style_found w) ++ report_lines)%list.
  split; [exact R|]. split; [apply saved_items|].
  rewrite saved_assets. simpl stdout. unfold style_found, style_out.
  destruct (fs w !! qgis_style_path) as [f|] eqn:E.
  - rewrite bool_decide_eq_true_2 by eauto.
    split; [reflexivity|]. split; [split; eauto|].
    split; [reflexivity|]. split; [|discriminate].
    intros X. exfalso. unfold report_lines in X.
    destruct Hd; simpl in X;
      repeat (apply elem_of_cons in X as [X|X]; [discriminate X|]);
      now apply elem_of_nil in X.
  - rewrite bool_decide_eq_false_2 by (intros [? ?]; discriminate).
    split; [reflexivity|].
    split; [split; [discriminate|intros [? ?]; discriminate]|].
    split; [reflexivity|]. split; [reflexivity|]. intros _.
    apply elem_of_app. right. apply elem_of_cons. now left.
Qed.

Lemma C4_style_asset_iff_file_witness :
  exists c w' item,
    main Sample.styled_world = Ok (c, w') /\ Catalog.items c = [item] /\
    PyDict.contains "qgis-style" (Item.assets item) = true.
Proof.
  destruct (C4_style_asset_iff_file Sample.styled_world Sample.dataset)
    as (c & w' & item & out & R & I & _ & S & _).
  - reflexivity.
  - exists c, w', item. repeat split; [exact R|exact I|].
    apply S. exists (Text "<qgis/>"). reflexivity.
Defined.

(** C5. After a run the item has the assets "thumbnail" and "legend",
    and the HREF of each, resolved from the directory of the item
    (output_dir/item_id), is the path of a file on disk: the PNG of
    band 1 and the legend text, both in the data directory. *)
Theorem C5_thumbnail_and_legend_on_disk (w : world)
    (ds : Rasterio.Dataset) :
  fs w !! tif_path = Some (GeoTIFF ds) ->
  let resolve href := PosixPath.normpath (PosixPath.join item_dir href) in
  exists c w' item thumb leg,
    main w = Ok (c, w') /\ Catalog.items c = [item] /\
    Item.self_href item
    = Some (PosixPath.join item_dir (item_id +:+ ".json")) /\
    PyDict.get "thumbnail" (Item.assets item) = Some thumb /\
    PyDict.get "legend" (Item.assets item) = Some leg /\
    resolve (Asset.href thumb) = PosixPath.join data_dir "thumbnail.png" /\
    resolve (Asset.href leg) = PosixPath.join data_dir "legend.json" /\
    Asset.get_absolute_href (Item.self_href item) thumb
    = Some (resolve (Asset.href thumb)) /\
    Asset.get_absolute_href (Item.self_href item) leg
    = Some (resolve (Asset.href leg)) /\
    fs w' !! resolve (Asset.href thumb)
    = Some (PNG (Pyplot.mk_rendering
                   (Pyplot.imshow (Rasterio.band1 ds) "tab20"
                      (Pyplot.axis "off" (Pyplot.figure (3, 3))))
                   "tight" 0)) /\
    fs w' !! resolve (Asset.href leg)
    = Some (Text (Json.dumps lulc_classes 2)).
Proof.
  intros H resolve.
  run_main w ds H start_dt end_dt out Hd R.
  exists (saved_catalog (built_item ds start_dt end_dt (style_found w))).
  eexists. exists (saved_item (built_item ds start_dt end_dt (style_found w))).
  exists thumbnail_asset, legend_asset.
  split; [exact R|]. split; [apply saved_items|].
  rewrite saved_self_href, saved_assets.
  split; [reflexivity|].
  split; [now destruct (style_found w)|].
  split; [now destruct (style_found w)|].
  split; [reflexivity|]. split; [reflexivity|].
  split; [reflexivity|]. split; [reflexivity|].
  simpl fs. split.
  - change (resolve (Asset.href thumbnail_asset)) with thumb_path.
    rewrite renamed_fs_other by paths_differ. apply saved_fs_thumb.
  - change (resolve (Asset.href legend_asset)) with legend_path.
    rewrite renamed_fs_other by paths_differ. apply saved_fs_legend.
Qed.

Lemma C5_thumbnail_and_legend_on_disk_witness :
  exists c w',
    main Sample.stale_world = Ok (c, w') /\
    is_Some (fs w' !! "/home/vishnu/corestack_STAC/data/thumbnail.png") /\
    is_Some (fs w' !! "/home/vishnu/corestack_STAC/data/legend.json").
Proof.
  destruct (C5_thumbnail_and_legend_on_disk Sample.stale_world
              Sample.empty_tag_dataset)
    as (c & w' & item & thumb & leg & R & _ & _ & T & L & PT & PL & _ & _
        & FT & FL).
  - reflexivity.
  - exists c, w'. split; [exact R|].
    rewrite PT in FT. rewrite PL in FL.
    split; eexists; [exact FT|exact FL].
Defined.

(** C6. The legend file of a run reads back, as JSON, as the list of the
    five classes (1 Water, 2 Urban, 3 Forest, 4 Cropland, 5 Barren) in
    this order, and the item carries the same list in its property
    "classification:classes". *)
Theorem C6_legend_round_trip (w : world) (ds : Rasterio.Dataset) :
  fs w !! tif_path = Some (GeoTIFF ds) ->
  let classes :=
    Json.List
      [Json.Dict [("value", Json.Int 1); ("name", Json.Str "Water")];
       Json.Dict [("value", Json.Int 2); ("name", Json.Str "Urban")];
       Json.Dict [("value", Json.Int 3); ("name", Json.Str "Forest")];
       Json.Dict [("value", Json.Int 4); ("name", Json.Str "Cropland")];
       Json.Dict [("value", Json.Int 5); ("name", Json.Str "Barren")]] in
  exists c w' item text,
    main w = Ok (c, w') /\ Catalog.items c = [item] /\
    fs w' !! PosixPath.join data_dir "legend.json" = Some (Text text) /\
    Json.loads text = Some classes /\
    PyDict.get "classification:classes" (Item.properties item)
    = Some classes.
Proof.
  intros H classes.
  run_main w ds H start_dt end_dt out Hd R.
  eexists _, _, _, _.
  split; [exact R|]. split; [apply saved_items|].
  rewrite saved_properties. simpl fs.
  split; [|split].
  - change (PosixPath.join data_dir "legend.json") with legend_path.
    rewrite renamed_fs_other by paths_differ. apply saved_fs_legend.
  - vm_compute. reflexivity.
  - reflexivity.
Qed.

Lemma C6_legend_round_trip_witness :
  exists c w' text,
    main Sample.styled_world = Ok (c, w') /\
    fs w' !! "/home/vishnu/corestack_STAC/data/legend.json"
    = Some (Text text) /\
    Json.loads text = Some lulc_classes.
Proof.
  destruct (C6_legend_round_trip Sample.styled_world Sample.dataset)
    as (c & w' & item & text & R & _ & F & L & _).
  - reflexivity.
  - exists c, w', text. split; [exact R|]. split; [exact F|exact L].
Defined.

(** C7. The properties "start_datetime" and "end_datetime" of the item
    are the [isoformat] texts of the dates of step 2, each followed by
    the letter Z whatever the date, and the [datetime] of the item is
    the start date. *)
Theorem C7_iso_dates_with_Z (w : world) (ds : Rasterio.Dataset) :
  fs w !! tif_path = Some (GeoTIFF ds) ->
  exists start_dt end_dt w1 c w' item,
    set_date_info w = Ok ((Some start_dt, Some end_dt), w1) /\
    main w = Ok (c, w') /\ Catalog.items c = [item] /\
    PyDict.get "start_datetime" (Item.properties item)
    = Some (Json.Str (Datetime.isoformat start_dt +:+ "Z")) /\
    PyDict.get "end_datetime" (Item.properties item)
    = Some (Json.Str (Datetime.isoformat end_dt +:+ "Z")) /\
    Item.datetime item = Some start_dt.
Proof.
  intros H.
  run_main w ds H start_dt end_dt out Hd R.
  exists start_dt, end_dt. eexists _, _, _, _.
  split; [apply (set_date_info_ok w ds _ _ _ H Hd)|].
  split; [exact R|]. split; [apply saved_items|].
  rewrite saved_properties, saved_datetime. repeat split.
Qed.

Lemma C7_iso_dates_with_Z_witness :
  exists start_dt c w' item,
    main Sample.styled_world = Ok (c, w') /\ Catalog.items c = [item] /\
    PyDict.get "start_datetime" (Item.properties item)
    = Some (Json.Str (Datetime.isoformat start_dt +:+ "Z")) /\
    Item.datetime item = Some start_dt.
Proof.
  destruct (C7_iso_dates_with_Z Sample.styled_world Sample.dataset)
    as (start_dt & end_dt & w1 & c & w' & item & D & R & I & S & _ & T).
  - reflexivity.
  - exists start_dt, c, w', item.
    split; [exact R|]. split; [exact I|]. split; [exact S|exact T].
Defined.

(** C8. After the catalog is saved, a file that stands at
    item_dir/item.json is moved to item_dir/item_id.json and every other
    file stays; when no file stands there the file system is left as the
    save left it.  In both cases the run goes on to its end without an
    exception. *)
Theorem C8_rename_or_skip (w : world) (ds : Rasterio.Dataset) :
  fs w !! tif_path = Some (GeoTIFF ds) ->
  exists c saved w',
    build_and_save w = Ok (c, saved) /\ main w = Ok (c, w') /\
    (forall f,
        fs saved !! PosixPath.join item_dir "item.json" = Some f ->
        fs w' !! PosixPath.join item_dir (item_id +:+ ".json") = Some f /\
        fs w' !! PosixPath.join item_dir "item.json" = None /\
        forall p,
          p <> PosixPath.join item_dir (item_id +:+ ".json") ->
          p <> PosixPath.join item_dir "item.json" ->
          fs w' !! p = fs saved !! p) /\
    (fs saved !! PosixPath.join item_dir "item.json" = None ->
     fs w' = fs saved).
Proof.
  intros H.
  destruct (date_outcome_total (date_tag ds))
    as (start_dt & end_dt & out & Hd).
  pose proof (build_and_save_ok w ds _ _ _ H Hd) as B.
  pose proof (main_ok w ds _ _ _ H Hd) as R.
  cbv zeta in B, R.
  eexists _, _, _. split; [exact B|]. split; [exact R|].
  simpl fs. fold default_item_path custom_item_path.
  set (m := saved_fs _ _ _). unfold renamed_fs.
  split.
  - intros f E. rewrite E. split; [apply lookup_insert_eq|].
    split.
    + rewrite lookup_insert_ne by paths_differ. apply lookup_delete_eq.
    + intros p Pc Pd. rewrite lookup_insert_ne by congruence.
      now rewrite lookup_delete_ne by congruence.
  - now intros ->.
Qed.

Lemma C8_rename_or_skip_witness :
  exists c w',
    main Sample.stale_world = Ok (c, w') /\
    fs w' !! default_item_path = None.
Proof.
  destruct (C8_rename_or_skip Sample.stale_world Sample.empty_tag_dataset)
    as (c & saved & w' & B & R & Moved & Skipped).
  - reflexivity.
  - exists c, w'. split; [exact R|].
    destruct (fs saved !! default_item_path) as [f|] eqn:E.
    + now destruct (Moved f E) as (_ & Gone & _).
    + now rewrite (Skipped E).
Defined.

(** C2. On a raster with bounds (10, 20, 30, 40) and the tag
    "2023:06:15 00:00:00", with the style file in place, the run gives
    a catalog with exactly one item: its id is "gobindpur-lulc", its
    bounding box [10, 20, 30, 40], its start and end properties
    "2023-06-15T00:00:00Z", and its assets are keyed "raster-data",
    "qgis-style", "thumbnail" and "legend" and nothing else.  The
    catalog file lists this one item. *)
Theorem C2_end_to_end (w : world) (ds : Rasterio.Dataset) :
  fs w !! tif_path = Some (GeoTIFF ds) ->
  Rasterio.bounds ds = Rasterio.mk_bounds 10 20 30 40 ->
  Rasterio.tags ds !! "TIFFTAG_DATETIME" = Some "2023:06:15 00:00:00" ->
  is_Some (fs w !! qgis_style_path) ->
  exists c w' item,
    main w = Ok (c, w') /\ Catalog.items c = [item] /\
    Item.id item = "gobindpur-lulc" /\
    Item.bbox item = [10; 20; 30; 40]%float /\
    PyDict.get "start_datetime" (Item.properties item)
    = Some (Json.Str "2023-06-15T00:00:00Z") /\
    PyDict.get "end_datetime" (Item.properties item)
    = Some (Json.Str "2023-06-15T00:00:00Z") /\
    PyDict.keys (Item.assets item)
    = ["raster-data"; "qgis-style"; "thumbnail"; "legend"] /\
    fs w' !! PosixPath.join output_dir "catalog.json"
    = Some (StacCatalog
              (Catalog.mk_dict "gobindpur-lulc-catalog" catalog_description
                 [mk_link "root" "./catalog.json";
                  mk_link "item" "./gobindpur-lulc/gobindpur-lulc.json"])).
Proof.
  intros H Hb Ht Hs.
  set (dt := Datetime.mk_datetime 2023 6 15 0 0 0 0).
  assert (Hd : date_outcome (date_tag ds) dt dt []).
  { now apply (outcome_parsed _ "2023:06:15 00:00:00"). }
  pose proof (main_ok w ds dt dt [] H Hd) as R. cbv zeta in R.
  assert (F : style_found w = true)
    by (unfold style_found; now apply bool_decide_eq_true_2).
  rewrite F in R.
  eexists _, _, _.
  split; [exact R|]. split; [apply saved_items|].
  rewrite saved_id, saved_bbox, saved_properties, saved_assets.
  unfold bbox_of. rewrite Hb.
  repeat (split; [reflexivity|]).
  simpl fs. fold catalog_path.
  rewrite renamed_fs_other by paths_differ.
  rewrite saved_fs_catalog. reflexivity.
Qed.

Lemma C2_end_to_end_witness :
  exists c w' item,
    main Sample.styled_world = Ok (c, w') /\ Catalog.items c = [item] /\
    PyDict.keys (Item.assets item)
    = ["raster-data"; "qgis-style"; "thumbnail"; "legend"].
Proof.
  destruct (C2_end_to_end Sample.styled_world Sample.dataset)
    as (c & w' & item & R & I & _ & _ & _ & _ & K & _).
  - reflexivity.
  - reflexivity.
  - reflexivity.
  - exists (Text "<qgis/>"). reflexivity.
  - exists c, w', item. split; [exact R|]. split; [exact I|exact K].
Defined.

End Claims.

(** ** More facts for the further properties *)

Lemma get_In {V} (k : string) (v : V) (d : PyDict.t V) :
  PyDict.get k d = Some v -> In (k, v) d.
Proof.
  induction d as [|[k0 v0] d IH]; simpl; [discriminate|].
  destruct (String.eqb k0 k) eqn:E.
  - intros [= <-]. apply String.eqb_eq in E. subst k0. now left.
  - intros G. right. now apply IH.
Qed.

(** Saving twice is saving once. *)
Lemma saved_fs_twice ds item (m : gmap string file) :
  Forms.saved_fs ds item (Forms.saved_fs ds item m) = Forms.saved_fs ds item m.
Proof.
  apply map_eq. intros p. unfold Forms.saved_fs.
  rewrite !lookup_insert.
  repeat case_decide; reflexivity.
Qed.

Lemma renamed_fs_none (m : gmap string file) :
  m !! Script.default_item_path = None -> Forms.renamed_fs m = m.
Proof. unfold Forms.renamed_fs. now intros ->. Qed.

(** ** The length of [isoformat] *)

Lemma length_append (s1 s2 : string) :
  String.length (s1 +:+ s2) = (String.length s1 + String.length s2)%nat.
Proof.
  induction s1 as [|c s1 IH]; simpl; [reflexivity|]. now rewrite IH.
Qed.

Lemma zero_padded_length (width bound : nat) (n : Z) :
  forallb (fun k => Nat.eqb (String.length
                               (Datetime.zero_padded width (Z.of_nat k)))
                            width)
          (seq 0 bound) = true ->
  0 <= n < Z.of_nat bound ->
  String.length (Datetime.zero_padded width n) = width.
Proof.
  intros A B.
  rewrite forallb_forall in A.
  specialize (A (Z.to_nat n)).
  rewrite Z2Nat.id in A by lia.
  apply Nat.eqb_eq. apply A. apply in_seq. lia.
Qed.

Lemma zero_padded_2 (n : Z) :
  0 <= n < 100 -> String.length (Datetime.zero_padded 2 n) = 2%nat.
Proof. apply (zero_padded_length 2 100). vm_compute. reflexivity. Qed.

Lemma zero_padded_4 (n : Z) :
  0 <= n < 10000 -> String.length (Datetime.zero_padded 4 n) = 4%nat.
Proof. apply (zero_padded_length 4 (100 * 100)). vm_compute. reflexivity. Qed.

Lemma within_bounds (lo hi x : Z) :
  Datetime.within lo hi x = true -> lo <= x <= hi.
Proof. unfold Datetime.within. lia. Qed.

Lemma days_in_month_le (y m : Z) : Datetime.days_in_month y m <= 31.
Proof.
  unfold Datetime.days_in_month.
  repeat match goal with |- context [if ?b then _ else _] => destruct b end;
    lia.
Qed.

(** A valid date-time with no microseconds prints on 19 characters. *)
Lemma isoformat_length (dt : Datetime.datetime) :
  Datetime.valid dt -> Datetime.microsecond dt = 0 ->
  String.length (Datetime.isoformat dt) = 19%nat.
Proof.
  intros [D T] U. unfold Datetime.isoformat. rewrite U. simpl (0 =? 0).
  unfold Datetime.check_date_fields in D.
  unfold Datetime.check_time_fields in T.
  destruct (Datetime.within 1 9999 _) eqn:Y; [|discriminate].
  destruct (Datetime.within 1 12 _) eqn:Mo; [|discriminate].
  destruct (Datetime.within 1 (Datetime.days_in_month _ _) _) eqn:Da;
    [|discriminate].
  destruct (Datetime.within 0 23 _) eqn:Ho; [|discriminate].
  destruct (Datetime.within 0 59 (Datetime.minute dt)) eqn:Mi;
    [|discriminate].
  destruct (Datetime.within 0 59 (Datetime.second dt)) eqn:Se;
    [|discriminate].
  apply within_bounds in Y, Mo, Da, Ho, Mi, Se.
  pose proof (days_in_month_le (Datetime.year dt) (Datetime.month dt)).
  rewrite !length_append.
  rewrite zero_padded_4 by lia.
  rewrite !zero_padded_2 by lia.
  reflexivity.
Qed.

Lemma new_microsecond (y m d h mi s us : Z) (dt : Datetime.datetime) :
  Datetime.new y m d h mi s us = Ok dt -> Datetime.microsecond dt = us.
Proof.
  unfold Datetime.new, result_bind.
  destruct (Datetime.check_date_fields y m d); [|discriminate].
  destruct (Datetime.check_time_fields h mi s us); [|discriminate].
  now intros [= <-].
Qed.

(** The format has no directive for a fraction: what [strptime] returns
    has no microseconds. *)
Lemma strptime_microsecond (s : string) (dt : Datetime.datetime) :
  Datetime.strptime s = Ok dt -> Datetime.microsecond dt = 0.
Proof.
  unfold Datetime.strptime.
  destruct (Regex.re_match Datetime.format_regex s) as [[found rest]|];
    [|discriminate].
  destruct (str_truthy rest); [discriminate|].
  unfold result_bind at 1.
  destruct (Datetime.check_date_fields _ _ _); [|discriminate].
  apply new_microsecond.
Qed.

(** ** Further properties of the script *)

Module Extras.

Import Script Pystac Forms ScriptFacts ItemFacts.

Ltac run w ds H start_dt end_dt out Hd Hr :=
  destruct (date_outcome_total (date_tag ds))
    as (start_dt & end_dt & out & Hd);
  pose proof (main_ok w ds start_dt end_dt out H Hd) as Hr;
  cbv zeta in Hr.

(** *** Step 2: the warning *)

(** X1. Step 2 leaves the file system alone and prints at most one line:
    the parse warning, with the exception [strptime] raised, exactly when
    the tag is a non-empty string that does not parse. *)
Theorem X1_parse_warning_iff_malformed (w : world) (ds : Rasterio.Dataset) :
  fs w !! tif_path = Some (GeoTIFF ds) ->
  exists start_dt end_dt out,
    set_date_info w
    = Ok ((Some start_dt, Some end_dt),
          mk_world (fs w) (cwd w) (stdout w ++ out)) /\
    ((exists s e,
         Rasterio.tags ds !! "TIFFTAG_DATETIME" = Some s /\
         s <> EmptyString /\ Datetime.strptime s = Raise e /\
         out = [PrintExn "⚠️ Failed to parse TIFFTAG_DATETIME: " e]) \/
     (out = [] /\
      forall s e,
        Rasterio.tags ds !! "TIFFTAG_DATETIME" = Some s ->
        s <> EmptyString -> Datetime.strptime s <> Raise e)).
Proof.
  intros H.
  destruct (date_outcome_total (date_tag ds)) as (s0 & e0 & out & Hd).
  exists s0, e0, out.
  split; [apply (set_date_info_ok w ds _ _ _ H Hd)|].
  unfold date_tag in Hd.
  destruct Hd as [s dt E T P | s e E T P | E | E].
  - right. split; [reflexivity|]. intros s' e' E' _ P'.
    rewrite E in E'. injection E' as <-. rewrite P in P'. discriminate P'.
  - left. exists s, e. repeat split; try assumption.
    intros ->. discriminate T.
  - right. split; [reflexivity|]. intros s' e' E' N' _.
    rewrite E in E'. injection E' as <-. now apply N'.
  - right. split; [reflexivity|]. intros s' e' E' _ _.
    rewrite E in E'. discriminate E'.
Qed.

Lemma X1_parse_warning_iff_malformed_witness :
  exists start_dt end_dt e,
    set_date_info Sample.bare_world
    = Ok ((Some start_dt, Some end_dt),
          mk_world (fs Sample.bare_world) (cwd Sample.bare_world)
            [PrintExn "⚠️ Failed to parse TIFFTAG_DATETIME: " e]).
Proof.
  destruct (X1_parse_warning_iff_malformed Sample.bare_world
              Sample.malformed_dataset)
    as (start_dt & end_dt & out & R & [(s & e & _ & _ & _ & ->) | [_ N]]).
  - reflexivity.
  - exists start_dt, end_dt, e. exact R.
  - exfalso.
    apply (N "2023-06-15"
             (ValueError_no_match "2023-06-15" Datetime.format)).
    + reflexivity.
    + discriminate.
    + reflexivity.
Defined.

(** *** The assets *)

(** X2. The item of a run has three or four assets, in the order the
    script adds them: "raster-data", then "qgis-style" when the style
    file exists, then "thumbnail" and "legend"; each HREF is the path
    ../../data/<file name> the script gives it. *)
Theorem X2_assets_in_order (w : world) (ds : Rasterio.Dataset) :
  fs w !! tif_path = Some (GeoTIFF ds) ->
  exists c w' item,
    main w = Ok (c, w') /\ Catalog.items c = [item] /\
    (is_Some (fs w !! qgis_style_path) ->
     map (fun kv => (fst kv, Asset.href (snd kv))) (Item.assets item)
     = [("raster-data", "../../data/gobindpur_lulc_2023_2024.tif");
        ("qgis-style", "../../data/style_file.qml");
        ("thumbnail", "../../data/thumbnail.png");
        ("legend", "../../data/legend.json")]) /\
    (fs w !! qgis_style_path = None ->
     map (fun kv => (fst kv, Asset.href (snd kv))) (Item.assets item)
     = [("raster-data", "../../data/gobindpur_lulc_2023_2024.tif");
        ("thumbnail", "../../data/thumbnail.png");
        ("legend", "../../data/legend.json")]).
Proof.
  intros H.
  run w ds H start_dt end_dt out Hd R.
  eexists _, _, _.
  split; [exact R|]. split; [apply saved_items|].
  rewrite saved_assets. unfold style_found.
  split.
  - intros S. now rewrite bool_decide_eq_true_2.
  - intros N.
    rewrite bool_decide_eq_false_2; [reflexivity|].
    rewrite N. intros [? ?]. discriminate.
Qed.

Lemma X2_assets_in_order_witness :
  exists c w' item,
    main Sample.bare_world = Ok (c, w') /\ Catalog.items c = [item] /\
    PyDict.keys (Item.assets item) = ["raster-data"; "thumbnail"; "legend"].
Proof.
  destruct (X2_assets_in_order Sample.bare_world Sample.malformed_dataset)
    as (c & w' & item & R & I & _ & K).
  - reflexivity.
  - exists c, w', item. split; [exact R|]. split; [exact I|].
    assert (N : fs Sample.bare_world !! qgis_style_path = None)
      by reflexivity.
    apply K in N. unfold PyDict.keys.
    apply (f_equal (map fst)) in N. rewrite map_map in N. exact N.
Defined.

(** X3. When the tag is absent or does not parse, the run still reaches
    its end, and the item carries the fallback range: start
    "2023-06-01T00:00:00Z", end "2024-03-31T00:00:00Z", and the first of
    June 2023 as its datetime. *)
Theorem X3_fallback_range_on_item (w : world) (ds : Rasterio.Dataset) :
  fs w !! tif_path = Some (GeoTIFF ds) ->
  (forall s dt,
      Rasterio.tags ds !! "TIFFTAG_DATETIME" = Some s ->
      Datetime.strptime s <> Ok dt) ->
  exists c w' item,
    main w = Ok (c, w') /\ Catalog.items c = [item] /\
    PyDict.get "start_datetime" (Item.properties item)
    = Some (Json.Str "2023-06-01T00:00:00Z") /\
    PyDict.get "end_datetime" (Item.properties item)
    = Some (Json.Str "2024-03-31T00:00:00Z") /\
    Item.datetime item = Some (Datetime.mk_datetime 2023 6 1 0 0 0 0).
Proof.
  intros H N.
  assert (Hd : exists out,
             date_outcome (date_tag ds) range_start range_end out).
  { unfold date_tag.
    destruct (Rasterio.tags ds !! "TIFFTAG_DATETIME") as [s|] eqn:E;
      [|eexists; now apply outcome_absent].
    destruct s as [|a s]; [eexists; now apply outcome_empty|].
    destruct (Datetime.strptime (String a s)) as [dt|e] eqn:P.
    - now destruct (N (String a s) dt).
    - eexists. now apply (outcome_malformed _ (String a s) e). }
  destruct Hd as [out Hd].
  pose proof (main_ok w ds _ _ out H Hd) as R. cbv zeta in R.
  eexists _, _, _.
  split; [exact R|]. split; [apply saved_items|].
  rewrite saved_properties, saved_datetime. repeat split.
Qed.

Lemma X3_fallback_range_on_item_witness :
  exists c w' item,
    main Sample.bare_world = Ok (c, w') /\ Catalog.items c = [item] /\
    PyDict.get "start_datetime" (Item.properties item)
    = Some (Json.Str "2023-06-01T00:00:00Z").
Proof.
  destruct (X3_fallback_range_on_item Sample.bare_world
              Sample.malformed_dataset)
    as (c & w' & item & R & I & S & _).
  - reflexivity.
  - intros s dt E P.
    assert (s = "2023-06-15") as -> by (vm_compute in E; congruence).
    discriminate P.
  - exists c, w', item. split; [exact R|]. split; [exact I|exact S].
Defined.

(** X4. No asset of the item dangles: after a run, the HREF of every
    asset, resolved from the directory of the item, is the path of a
    file on disk.  The asset "raster-data" resolves to the raster itself,
    which the run has left as it was. *)
Theorem X4_no_dangling_asset (w : world) (ds : Rasterio.Dataset) :
  fs w !! tif_path = Some (GeoTIFF ds) ->
  let resolve href := PosixPath.normpath (PosixPath.join item_dir href) in
  exists c w' item,
    main w = Ok (c, w') /\ Catalog.items c = [item] /\
    (forall key asset,
        PyDict.get key (Item.assets item) = Some asset ->
        is_Some (fs w' !! resolve (Asset.href asset))) /\
    (exists asset,
        PyDict.get "raster-data" (Item.assets item) = Some asset /\
        resolve (Asset.href asset) = tif_path /\
        fs w' !! tif_path = Some (GeoTIFF ds)).
Proof.
  intros H resolve.
  run w ds H start_dt end_dt out Hd R.
  eexists _, _, _.
  split; [exact R|]. split; [apply saved_items|].
  rewrite saved_assets. simpl fs.
  assert (T : renamed_fs
                (saved_fs ds (built_item ds start_dt end_dt (style_found w))
                   (fs w)) !! tif_path = Some (GeoTIFF ds)).
  { rewrite renamed_fs_other by paths_differ.
    rewrite saved_fs_other by paths_differ. exact H. }
  split.
  - intros key asset G. apply get_In in G.
    assert (S : style_found w = true ->
                is_Some (renamed_fs
                  (saved_fs ds
                     (built_item ds start_dt end_dt (style_found w))
                     (fs w)) !! qgis_style_path)).
    { intros F. rewrite renamed_fs_other by paths_differ.
      rewrite saved_fs_other by paths_differ.
      unfold style_found in F. now apply bool_decide_eq_true_1 in F. }
    assert (Th : is_Some (renamed_fs
                  (saved_fs ds
                     (built_item ds start_dt end_dt (style_found w))
                     (fs w)) !! thumb_path)).
    { rewrite renamed_fs_other by paths_differ.
      rewrite saved_fs_thumb. eauto. }
    assert (Le : is_Some (renamed_fs
                  (saved_fs ds
                     (built_item ds start_dt end_dt (style_found w))
                     (fs w)) !! legend_path)).
    { rewrite renamed_fs_other by paths_differ.
      rewrite saved_fs_legend. eauto. }
    destruct (style_found w); simpl in G.
    + destruct G as [G|[G|[G|[G|[]]]]]; injection G as _ <-.
      * change (resolve (Asset.href raster_asset)) with tif_path.
        rewrite T. eauto.
      * change (resolve (Asset.href style_asset)) with qgis_style_path.
        now apply S.
      * exact Th.
      * exact Le.
    + destruct G as [G|[G|[G|[]]]]; injection G as _ <-.
      * change (resolve (Asset.href raster_asset)) with tif_path.
        rewrite T. eauto.
      * exact Th.
      * exact Le.
  - exists raster_asset. split; [reflexivity|]. split; [reflexivity|exact T].
Qed.

Lemma X4_no_dangling_asset_witness :
  exists c w' item,
    main Sample.styled_world = Ok (c, w') /\ Catalog.items c = [item] /\
    fs w' !! tif_path = Some (GeoTIFF Sample.dataset).
Proof.
  destruct (X4_no_dangling_asset Sample.styled_world Sample.dataset)
    as (c & w' & item & R & I & _ & (asset & _ & _ & T)).
  - reflexivity.
  - exists c, w', item. split; [exact R|]. split; [exact I|exact T].
Defined.

(** *** What the run changes and what it prints *)

(** X5. A run writes at five paths at most: the thumbnail and the legend
    in the data directory, catalog.json, and item_id.json and item.json
    in the item directory.  Every other file, the raster and the style
    file among them, is after the run what it was before, and so is the
    working directory. *)
Theorem X5_only_five_paths_change (w : world) (ds : Rasterio.Dataset) :
  fs w !! tif_path = Some (GeoTIFF ds) ->
  exists c w',
    main w = Ok (c, w') /\ cwd w' = cwd w /\
    (forall p,
        p <> PosixPath.join data_dir "thumbnail.png" ->
        p <> PosixPath.join data_dir "legend.json" ->
        p <> PosixPath.join output_dir "catalog.json" ->
        p <> PosixPath.join item_dir (item_id +:+ ".json") ->
        p <> PosixPath.join item_dir "item.json" ->
        fs w' !! p = fs w !! p) /\
    fs w' !! tif_path = fs w !! tif_path /\
    fs w' !! qgis_style_path = fs w !! qgis_style_path.
Proof.
  intros H.
  run w ds H start_dt end_dt out Hd R.
  eexists _, _. split; [exact R|]. split; [reflexivity|]. simpl fs.
  assert (F : forall p,
             p <> thumb_path -> p <> legend_path -> p <> catalog_path ->
             p <> custom_item_path -> p <> default_item_path ->
             renamed_fs
               (saved_fs ds (built_item ds start_dt end_dt (style_found w))
                  (fs w)) !! p = fs w !! p).
  { intros p Pt Pl Pc Pi Pd.
    rewrite renamed_fs_other by assumption.
    now apply saved_fs_other. }
  split; [exact F|].
  split; apply F; paths_differ.
Qed.

Lemma X5_only_five_paths_change_witness :
  exists c w',
    main Sample.other_world = Ok (c, w') /\
    fs w' !! "/home/vishnu/notes.txt" = Some (Text "notes").
Proof.
  destruct (X5_only_five_paths_change Sample.other_world
              Sample.other_dataset)
    as (c & w' & R & _ & F & _).
  - reflexivity.
  - exists c, w'. split; [exact R|].
    rewrite F; [reflexivity| | | | |]; paths_differ.
Defined.

(** X6. The console of a run: after what was there, the parse warning
    if there is one, then the style warning if there is one, then the
    six lines of the report, always.  The two paths the report names,
    catalog.json and item_id.json, are paths of files on disk when the
    run ends. *)
Theorem X6_console_and_report (w : world) (ds : Rasterio.Dataset) :
  fs w !! tif_path = Some (GeoTIFF ds) ->
  exists c w' parse_lines style_lines catalog_json item_json,
    main w = Ok (c, w') /\
    stdout w'
    = (stdout w ++ parse_lines ++ style_lines
         ++ [Print "✅ STAC catalog created with:";
             Print " - 📅 start/end datetime";
             Print " - 🖼️ thumbnail preview";
             Print " - 📘 LULC legend";
             Print ("📄 catalog.json: " +:+ catalog_json);
             Print ("📄 item: " +:+ item_json)])%list /\
    (parse_lines = [] \/
     exists e,
       parse_lines = [PrintExn "⚠️ Failed to parse TIFFTAG_DATETIME: " e]) /\
    (style_lines
     = if bool_decide (is_Some (fs w !! qgis_style_path)) then []
       else [Print "⚠️ QML file not found. Skipping style asset."]) /\
    catalog_json = PosixPath.join output_dir "catalog.json" /\
    item_json = PosixPath.join item_dir (item_id +:+ ".json") /\
    is_Some (fs w' !! catalog_json) /\ is_Some (fs w' !! item_json).
Proof.
  intros H.
  run w ds H start_dt end_dt out Hd R.
  eexists _, _, out, (style_out (style_found w)), _, _.
  split; [exact R|]. simpl stdout. simpl fs.
  split; [reflexivity|].
  split; [destruct Hd; eauto|].
  split; [reflexivity|]. split; [reflexivity|]. split; [reflexivity|].
  split.
  - fold catalog_path. rewrite renamed_fs_other by paths_differ.
    rewrite saved_fs_catalog. eauto.
  - fold custom_item_path. unfold renamed_fs.
    destruct (saved_fs _ _ _ !! default_item_path) as [f|].
    + rewrite lookup_insert_eq. eauto.
    + rewrite saved_fs_item. eauto.
Qed.

Lemma X6_console_and_report_witness :
  exists c w',
    main Sample.other_world = Ok (c, w') /\
    is_Some (fs w' !! PosixPath.join output_dir "catalog.json") /\
    is_Some (fs w' !! PosixPath.join item_dir (item_id +:+ ".json")).
Proof.
  destruct (X6_console_and_report Sample.other_world Sample.other_dataset)
    as (c & w' & pl & sl & cj & ij & R & _ & _ & _ & -> & -> & C & I).
  - reflexivity.
  - exists c, w'. split; [exact R|]. split; [exact C|exact I].
Defined.

(** *** The item file and the catalog file *)

(** X8. When no file stands at item.json before the run, the file the
    run leaves at item_id.json is the document of the item of the
    catalog: same id, geometry, bounding box, properties (the datetime
    among them) and assets, with the root and parent links
    ../catalog.json. *)
Theorem X8_item_file_is_the_item (w : world) (ds : Rasterio.Dataset) :
  fs w !! tif_path = Some (GeoTIFF ds) ->
  fs w !! default_item_path = None ->
  exists c w' item d,
    main w = Ok (c, w') /\ Catalog.items c = [item] /\
    fs w' !! custom_item_path = Some (StacItem d) /\
    Item.d_id d = Item.id item /\
    Item.d_geometry d = Item.geometry item /\
    Item.d_bbox d = Item.bbox item /\
    Item.d_properties d = Item.properties item /\
    Item.d_assets d = Item.assets item /\
    Item.d_links d
    = [mk_link "root" "../catalog.json";
       mk_link "parent" "../catalog.json"] /\
    PyDict.get "datetime" (Item.d_properties d)
    = PyDict.get "start_datetime" (Item.d_properties d).
Proof.
  intros H N.
  run w ds H start_dt end_dt out Hd R.
  eexists _, _, _, _.
  split; [exact R|]. split; [apply saved_items|]. simpl fs.
  split.
  - rewrite renamed_fs_none.
    + apply saved_fs_item.
    + rewrite saved_fs_other by paths_differ. exact N.
  - destruct (style_found w); repeat split.
Qed.

Lemma X8_item_file_is_the_item_witness :
  exists c w' item d,
    main Sample.styled_world = Ok (c, w') /\ Catalog.items c = [item] /\
    fs w' !! custom_item_path = Some (StacItem d) /\
    Item.d_assets d = Item.assets item.
Proof.
  destruct (X8_item_file_is_the_item Sample.styled_world Sample.dataset)
    as (c & w' & item & d & R & I & F & _ & _ & _ & _ & A & _).
  - reflexivity.
  - reflexivity.
  - exists c, w', item, d.
    split; [exact R|]. split; [exact I|]. split; [exact F|exact A].
Defined.

(** X9. When a file stands at item.json before the run, the rename puts
    it at item_id.json in place of the item document the save has just
    written there: after the run item_id.json holds that older file and
    item.json is gone, while catalog.json still links to item_id.json. *)
Theorem X9_stale_item_json_replaces_item (w : world) (ds : Rasterio.Dataset)
    (f : file) :
  fs w !! tif_path = Some (GeoTIFF ds) ->
  fs w !! default_item_path = Some f ->
  exists c saved w' d,
    build_and_save w = Ok (c, saved) /\
    fs saved !! custom_item_path = Some (StacItem d) /\
    main w = Ok (c, w') /\
    fs w' !! custom_item_path = Some f /\
    fs w' !! default_item_path = None /\
    exists cat,
      fs w' !! PosixPath.join output_dir "catalog.json"
      = Some (StacCatalog cat) /\
      In (mk_link "item" "./gobindpur-lulc/gobindpur-lulc.json")
         (Catalog.d_links cat).
Proof.
  intros H S.
  destruct (date_outcome_total (date_tag ds))
    as (start_dt & end_dt & out & Hd).
  pose proof (build_and_save_ok w ds _ _ _ H Hd) as B.
  pose proof (main_ok w ds _ _ _ H Hd) as R.
  cbv zeta in B, R.
  eexists _, _, _, _.
  split; [exact B|]. simpl fs.
  split; [apply saved_fs_item|].
  split; [exact R|]. simpl fs.
  assert (S' : saved_fs ds (built_item ds start_dt end_dt (style_found w))
                 (fs w) !! default_item_path = Some f).
  { rewrite saved_fs_other by paths_differ. exact S. }
  split; [|split].
  - unfold renamed_fs. rewrite S'. apply lookup_insert_eq.
  - unfold renamed_fs. rewrite S'.
    rewrite lookup_insert_ne by paths_differ. apply lookup_delete_eq.
  - eexists. split.
    + fold catalog_path. rewrite renamed_fs_other by paths_differ.
      apply saved_fs_catalog.
    + destruct (style_found w); right; left; reflexivity.
Qed.

Lemma X9_stale_item_json_replaces_item_witness :
  exists c w',
    main Sample.stale_world = Ok (c, w') /\
    fs w' !! custom_item_path = Some (Text "stale").
Proof.
  destruct (X9_stale_item_json_replaces_item Sample.stale_world
              Sample.empty_tag_dataset (Text "stale"))
    as (c & saved & w' & d & _ & _ & R & F & _).
  - reflexivity.
  - reflexivity.
  - exists c, w'. split; [exact R|exact F].
Defined.

(** X10. A second run changes nothing on disk: on a world with no
    item.json, the run on the world the first run leaves returns the same
    catalog and leaves the same file system. *)
Theorem X10_second_run_same_disk (w : world) (ds : Rasterio.Dataset) :
  fs w !! tif_path = Some (GeoTIFF ds) ->
  fs w !! default_item_path = None ->
  exists c w1 w2,
    main w = Ok (c, w1) /\ main w1 = Ok (c, w2) /\ fs w2 = fs w1.
Proof.
  intros H N.
  run w ds H start_dt end_dt out Hd R.
  set (item := built_item ds start_dt end_dt (style_found w)) in *.
  assert (E1 : renamed_fs (saved_fs ds item (fs w)) = saved_fs ds item (fs w)).
  { apply renamed_fs_none. rewrite saved_fs_other by paths_differ. exact N. }
  rewrite E1 in R.
  set (w1 := mk_world (saved_fs ds item (fs w)) (cwd w)
               (stdout w ++ out ++ style_out (style_found w) ++ report_lines))
    in *.
  assert (H1 : fs w1 !! tif_path = Some (GeoTIFF ds)).
  { unfold w1. simpl. rewrite saved_fs_other by paths_differ. exact H. }
  assert (F1 : style_found w1 = style_found w).
  { unfold style_found, w1. simpl.
    now rewrite saved_fs_other by paths_differ. }
  pose proof (main_ok w1 ds start_dt end_dt out H1 Hd) as R1.
  cbv zeta in R1. rewrite F1 in R1. fold item in R1.
  exists (saved_catalog item), w1. eexists.
  split; [exact R|]. split; [exact R1|]. simpl.
  rewrite saved_fs_twice. exact E1.
Qed.

Lemma X10_second_run_same_disk_witness :
  exists c w1 w2,
    main Sample.styled_world = Ok (c, w1) /\ main w1 = Ok (c, w2) /\
    fs w2 = fs w1.
Proof.
  apply (X10_second_run_same_disk Sample.styled_world Sample.dataset).
  - reflexivity.
  - reflexivity.
Defined.

(** X11. The catalog depends on the raster bounds, on the date tag and
    on whether the style file exists, and on nothing else: two worlds
    that agree on these three give the same catalog, whatever their
    pixels, their other tags, their other files and their consoles. *)
Theorem X11_catalog_depends_on_three_inputs (w1 w2 : world)
    (ds1 ds2 : Rasterio.Dataset) :
  fs w1 !! tif_path = Some (GeoTIFF ds1) ->
  fs w2 !! tif_path = Some (GeoTIFF ds2) ->
  Rasterio.bounds ds1 = Rasterio.bounds ds2 ->
  Rasterio.tags ds1 !! "TIFFTAG_DATETIME"
  = Rasterio.tags ds2 !! "TIFFTAG_DATETIME" ->
  (is_Some (fs w1 !! qgis_style_path) <-> is_Some (fs w2 !! qgis_style_path)) ->
  exists c w1' w2', main w1 = Ok (c, w1') /\ main w2 = Ok (c, w2').
Proof.
  intros H1 H2 Hb Ht Hs.
  destruct (date_outcome_total (date_tag ds1))
    as (start_dt & end_dt & out & Hd1).
  assert (Hd2 : date_outcome (date_tag ds2) start_dt end_dt out).
  { unfold date_tag in *. now rewrite <- Ht. }
  pose proof (main_ok w1 ds1 _ _ _ H1 Hd1) as R1.
  pose proof (main_ok w2 ds2 _ _ _ H2 Hd2) as R2.
  cbv zeta in R1, R2.
  assert (F : style_found w2 = style_found w1).
  { unfold style_found. apply bool_decide_ext. now symmetry. }
  assert (I : built_item ds2 start_dt end_dt (style_found w2)
              = built_item ds1 start_dt end_dt (style_found w1)).
  { rewrite F. unfold built_item, new_item, bbox_of, geometry_of.
    now rewrite Hb. }
  rewrite I in R2.
  eexists _, _, _. split; [exact R1|exact R2].
Qed.

Lemma X11_catalog_depends_on_three_inputs_witness :
  exists c w1' w2',
    main Sample.styled_world = Ok (c, w1') /\
    main Sample.other_world = Ok (c, w2').
Proof.
  apply (X11_catalog_depends_on_three_inputs Sample.styled_world
           Sample.other_world Sample.dataset Sample.other_dataset).
  - reflexivity.
  - reflexivity.
  - reflexivity.
  - reflexivity.
  - split; intros _;
      [exists (Text "<qgis version=3/>")|exists (Text "<qgis/>")];
      vm_compute; reflexivity.
Defined.

(** X12. The catalog is the same for every raster: its id and its
    description are the two constants of the script, it is
    self-contained, its file is output_dir/catalog.json, and this file
    holds the root link ./catalog.json and one item link,
    ./gobindpur-lulc/gobindpur-lulc.json. *)
Theorem X12_catalog_file (w : world) (ds : Rasterio.Dataset) :
  fs w !! tif_path = Some (GeoTIFF ds) ->
  exists c w',
    main w = Ok (c, w') /\
    Catalog.id c = "gobindpur-lulc-catalog" /\
    Catalog.description c
    = "STAC Catalog for Gobindpur LULC 2023-24 with metadata and thumbnail" /\
    Catalog.catalog_type c = SELF_CONTAINED /\
    Catalog.self_href c = Some (PosixPath.join output_dir "catalog.json") /\
    length (Catalog.items c) = 1%nat /\
    fs w' !! PosixPath.join output_dir "catalog.json"
    = Some (StacCatalog
              (Catalog.mk_dict (Catalog.id c) (Catalog.description c)
                 [mk_link "root" "./catalog.json";
                  mk_link "item" "./gobindpur-lulc/gobindpur-lulc.json"])).
Proof.
  intros H.
  run w ds H start_dt end_dt out Hd R.
  eexists _, _. split; [exact R|].
  repeat (split; [reflexivity|]).
  simpl fs. fold catalog_path.
  rewrite renamed_fs_other by paths_differ.
  rewrite saved_fs_catalog.
  destruct (style_found w); reflexivity.
Qed.

Lemma X12_catalog_file_witness :
  exists c w',
    main Sample.bare_world = Ok (c, w') /\
    Catalog.id c = "gobindpur-lulc-catalog".
Proof.
  destruct (X12_catalog_file Sample.bare_world Sample.malformed_dataset)
    as (c & w' & R & I & _).
  - reflexivity.
  - exists c, w'. split; [exact R|exact I].
Defined.

(** *** The shape of the dates *)

(** X13. The two date properties of the item are always 20 characters
    long: the 19 characters of a date and a time to the second, with no
    fraction, and the letter Z.  The dates of step 2 are valid and have
    no microseconds. *)
Theorem X13_dates_on_twenty_characters (w : world) (ds : Rasterio.Dataset) :
  fs w !! tif_path = Some (GeoTIFF ds) ->
  exists c w' item start_iso end_iso,
    main w = Ok (c, w') /\ Catalog.items c = [item] /\
    PyDict.get "start_datetime" (Item.properties item)
    = Some (Json.Str (start_iso +:+ "Z")) /\
    PyDict.get "end_datetime" (Item.properties item)
    = Some (Json.Str (end_iso +:+ "Z")) /\
    String.length start_iso = 19%nat /\ String.length end_iso = 19%nat /\
    String.length (start_iso +:+ "Z") = 20%nat /\
    String.length (end_iso +:+ "Z") = 20%nat.
Proof.
  intros H.
  run w ds H start_dt end_dt out Hd R.
  exists (saved_catalog (built_item ds start_dt end_dt (style_found w))).
  eexists. eexists.
  exists (Datetime.isoformat start_dt), (Datetime.isoformat end_dt).
  split; [exact R|]. split; [apply saved_items|].
  rewrite saved_properties.
  split; [reflexivity|]. split; [reflexivity|].
  assert (L : String.length (Datetime.isoformat start_dt) = 19%nat /\
              String.length (Datetime.isoformat end_dt) = 19%nat).
  { destruct Hd as [s dt E T P | s e E T P | E | E].
    - assert (String.length (Datetime.isoformat dt) = 19%nat).
      { apply isoformat_length;
          [exact (strptime_valid s dt P)|exact (strptime_microsecond s dt P)]. }
      now split.
    - split; reflexivity.
    - split; reflexivity.
    - split; reflexivity. }
  destruct L as [Ls Le].
  rewrite !length_append, Ls, Le. repeat split.
Qed.

Lemma X13_dates_on_twenty_characters_witness :
  exists c w' item start_iso,
    main Sample.styled_world = Ok (c, w') /\ Catalog.items c = [item] /\
    PyDict.get "start_datetime" (Item.properties item)
    = Some (Json.Str (start_iso +:+ "Z")) /\
    String.length start_iso = 19%nat.
Proof.
  destruct (X13_dates_on_twenty_characters Sample.styled_world
              Sample.dataset)
    as (c & w' & item & s1 & s2 & R & I & P & _ & L & _).
  - reflexivity.
  - exists c, w', item, s1.
    split; [exact R|]. split; [exact I|]. split; [exact P|exact L].
Defined.

End Extras.
